(** * AI YouTube Video Summarizer: a shallow embedding of [app.py]

    The program is a Streamlit script: four stage functions wrapped around
    external services (pytube, youtube_transcript_api, tiktoken, OpenAI) and
    a driver that chains them.  The embedding keeps that shape:

    - Python [str] values are lists of code points ([pystr]);
    - the outside world is a record [world] holding the local file system,
      the widgets rendered so far and a log of calls;
    - the external services are oracles, gathered in the record [services],
      whose answer may depend on the whole world at the time of the call;
    - Python code is written in a state-and-exception monad [M]: a raised
      exception keeps the state reached so far, as in Python. *)

From Stdlib Require Import ZArith QArith Qround List String Ascii Lia.
From stdpp Require Import base decidable countable gmap.

Import ListNotations.
Local Open Scope Z_scope.
Local Open Scope list_scope.

(** ** Python strings *)

(** A Python [str] is a sequence of Unicode code points; [len] and slicing
    count code points. *)
Abbreviation pystr := (list N).

Fixpoint lit (s : string) : pystr :=
  match s with
  | EmptyString => []
  | String c s' => N_of_ascii c :: lit s'
  end.

(** Truthiness of a [str]: the empty string is falsy. *)
Definition truthy_str (s : pystr) : bool :=
  match s with
  | [] => false
  | _ :: _ => true
  end.

(** Truthiness of a value that is either [None] or a [str]. *)
Definition truthy (o : option pystr) : bool :=
  match o with
  | None => false
  | Some s => truthy_str s
  end.

(** [sep.join(xs)] *)
Fixpoint join (sep : pystr) (xs : list pystr) : pystr :=
  match xs with
  | [] => []
  | [x] => x
  | x :: rest => x ++ sep ++ join sep rest
  end.

(** [text[:n]] for an [int] [n]: a negative stop counts from the end. *)
Definition slice_to (text : pystr) (n : Z) : pystr :=
  if 0 <=? n then firstn (Z.to_nat n) text
  else firstn (Z.to_nat (Z.of_nat (length text) + n)) text.

(** [int(max_tokens * 3.5)]: for an [int] of absolute value at most 2^50 the
    product 7/2 x [max_tokens] is exact in binary floating point and [int]
    rounds it towards zero; this covers the default 3000, the only value the
    program passes.  Beyond that range Python rounds the product or raises
    [OverflowError], which this definition does not follow. *)
Definition char_limit (max_tokens : Z) : Z := Z.quot (7 * max_tokens) 2.

(** ** Exceptions *)

(** The classes the program distinguishes or that its own operations raise.
    All of them derive from [Exception]; [OtherException] stands for any
    other subclass of [Exception] a service may raise. *)
Inductive exn_class :=
| TranscriptsDisabled
| NoTranscriptFound
| KeyError
| IndexError
| FileNotFoundError
| FileExistsError
| IsADirectoryError
| OtherException.

(** An exception object; [exn_msg e] is [str(e)]. *)
Record exn := Exn { exn_cls : exn_class; exn_msg : pystr }.

Inductive result (A : Type) :=
| Ok (a : A)
| Raise (e : exn).
Arguments Ok {A} a.
Arguments Raise {A} e.

(** ** Values exchanged with the services *)

(** An entry of the list returned by [YouTubeTranscriptApi.get_transcript];
    the program reads only its ['text'] key. *)
Record segment := Segment { text : pystr }.

(** A pytube [Stream], with the attributes [StreamQuery.filter] looks at. *)
Record stream := Stream {
  itag : N;
  includes_audio_track : bool;
  includes_video_track : bool;
  subtype : pystr
}.

(** The object built by [YouTube(url)]. *)
Record youtube := YouTube { watch_url : pystr; video_id : pystr }.

Record message := Message { role : pystr; content : pystr }.

(** The keyword arguments of [openai.ChatCompletion.create]. *)
Record chat_request := ChatRequest {
  model : pystr;
  messages : list message;
  temperature : Q;
  max_tokens : Z
}.

Record choice := Choice { choice_message : message }.
Record chat_response := ChatResponse { choices : list choice }.

(** ** Rendered widgets *)

Inductive widget :=
| St_set_page_config (page_title layout : pystr)
| St_title (body : pystr)
| St_text_input (label placeholder : pystr)
| St_button (label : pystr)
| St_spinner_enter (body : pystr)
| St_spinner_exit
| St_subheader (body : pystr)
| St_expander_write (label body : pystr)
| St_write (body : pystr)
| St_columns (n : Z)
| St_download_button (column : nat) (label data file_name : pystr)
| St_error (body : pystr)
| St_warning (body : pystr)
| St_markdown (body : pystr).

(** ** Call log *)

Inductive stage :=
| Get_youtube_transcript
| Download_audio
| Transcribe_audio
| Generate_summary.

(** Entries of the call log: entering one of the four stage functions with
    its argument, and every request made to a service or to the file
    system. *)
Inductive call :=
| Enter (s : stage) (arg : pystr)
| Call_YouTube (url : pystr)
| Call_get_transcript (vid : pystr) (languages : list pystr)
| Call_streams (yt : youtube)
| Call_mkdir (path : pystr)
| Call_download (s : stream) (output_path : pystr)
| Call_open (path : pystr)
| Call_transcribe (model : pystr) (path : pystr)
| Call_remove (path : pystr)
| Call_encode (model : pystr) (text : pystr)
| Call_chat (req : chat_request).

(** ** The world *)

(** [files] and [dirs] are the regular files and the directories that
    exist; [openai_api_key] is the module attribute [openai.api_key];
    [ui] and [history] are newest first. *)
Record world := World {
  files : gset pystr;
  dirs : gset pystr;
  openai_api_key : option pystr;
  ui : list widget;
  history : list call
}.

Definition set_files (f : gset pystr -> gset pystr) (w : world) : world :=
  {| files := f (files w); dirs := dirs w; openai_api_key := openai_api_key w;
     ui := ui w; history := history w |}.

Definition set_dirs (f : gset pystr -> gset pystr) (w : world) : world :=
  {| files := files w; dirs := f (dirs w); openai_api_key := openai_api_key w;
     ui := ui w; history := history w |}.

Definition set_api_key (k : option pystr) (w : world) : world :=
  {| files := files w; dirs := dirs w; openai_api_key := k;
     ui := ui w; history := history w |}.

Definition show (x : widget) (w : world) : world :=
  {| files := files w; dirs := dirs w; openai_api_key := openai_api_key w;
     ui := x :: ui w; history := history w |}.

Definition record (c : call) (w : world) : world :=
  {| files := files w; dirs := dirs w; openai_api_key := openai_api_key w;
     ui := ui w; history := c :: history w |}.

(** The entries added to a newest-first log [after] that extends [before],
    oldest first. *)
Definition since {A} (before after : list A) : list A :=
  rev (firstn (length after - length before) after).

Definition calls_since (w w' : world) : list call := since (history w) (history w').
Definition ui_since (w w' : world) : list widget := since (ui w) (ui w').

(** ** The services *)

Record services := Services {
  (** [st.secrets[key]] *)
  sv_secrets : pystr -> option pystr;
  (** [YouTube(url)] *)
  sv_YouTube : world -> pystr -> result youtube;
  (** [YouTubeTranscriptApi.get_transcript(video_id, languages=...)] *)
  sv_get_transcript : world -> pystr -> list pystr -> result (list segment);
  (** [yt.streams] *)
  sv_streams : world -> youtube -> result (list stream);
  (** [stream.download(output_path=...)]: the path of the written file *)
  sv_download : world -> stream -> pystr -> result pystr;
  (** [openai.Audio.transcribe(model, audio_file)]: the ['text'] of the answer *)
  sv_transcribe : world -> pystr -> pystr -> result pystr;
  (** [tiktoken.encoding_for_model(model).encode(text)] *)
  sv_encode : world -> pystr -> pystr -> result (list N);
  (** [openai.ChatCompletion.create(...)] *)
  sv_chat : world -> chat_request -> result chat_response
}.

(** ** The monad of Python code *)

Definition M (A : Type) : Type := world -> result A * world.

Definition ret {A} (a : A) : M A := fun w => (Ok a, w).

Definition raise {A} (e : exn) : M A := fun w => (Raise e, w).

Definition bind {A B} (m : M A) (k : A -> M B) : M B :=
  fun w =>
    match m w with
    | (Ok a, w') => k a w'
    | (Raise e, w') => (Raise e, w')
    end.

(** [try: body  except: handler] with a handler that takes every exception
    it is given. *)
Definition try_except {A} (body : M A) (handler : exn -> M A) : M A :=
  fun w =>
    match body w with
    | (Ok a, w') => (Ok a, w')
    | (Raise e, w') => handler e w'
    end.

(** [try: body  finally: cleanup] *)
Definition try_finally {A} (body : M A) (cleanup : M unit) : M A :=
  fun w =>
    match body w with
    | (Ok a, w') =>
        match cleanup w' with
        | (Ok _, w'') => (Ok a, w'')
        | (Raise e, w'') => (Raise e, w'')
        end
    | (Raise e, w') =>
        match cleanup w' with
        | (Ok _, w'') => (Raise e, w'')
        | (Raise e', w'') => (Raise e', w'')
        end
    end.

Definition modify (f : world -> world) : M unit := fun w => (Ok tt, f w).

(** A request to a service: the oracle answers in the world as it is when
    the request is made, and the request is logged. *)
Definition ask {A} (c : call) (oracle : world -> result A) : M A :=
  fun w => (oracle w, record c w).

Declare Scope py_scope.
Delimit Scope py_scope with py.
Notation "x <- m ;; k" := (bind m (fun x => k))
  (at level 100, m at next level, right associativity) : py_scope.
Notation "m ;; k" := (bind m (fun _ => k))
  (at level 100, right associativity) : py_scope.
Local Open Scope py_scope.

(** A Streamlit call that renders [x]; failures of Streamlit itself are not
    followed. *)
Definition st (x : widget) : M unit := modify (show x).

Definition get : M world := fun w => (Ok w, w).

Definition enter (s : stage) (arg : pystr) : M unit := modify (record (Enter s arg)).

(** [isinstance(e, classes)] for a tuple of classes. *)
Definition exn_class_eqb (a b : exn_class) : bool :=
  match a, b with
  | TranscriptsDisabled, TranscriptsDisabled
  | NoTranscriptFound, NoTranscriptFound
  | KeyError, KeyError
  | IndexError, IndexError
  | FileNotFoundError, FileNotFoundError
  | FileExistsError, FileExistsError
  | IsADirectoryError, IsADirectoryError
  | OtherException, OtherException => true
  | _, _ => false
  end.

Definition isinstance (e : exn) (classes : list exn_class) : bool :=
  existsb (exn_class_eqb (exn_cls e)) classes.

(** ** File system operations *)

(** The file name as it appears in the text of an [OSError]: [repr] of a
    name without quotes, backslashes or unprintable characters. *)
Definition quoted (s : pystr) : pystr := lit "'" ++ s ++ lit "'".

(** [open(path, "rb")]: the handle is represented by the path. *)
Definition open_rb (path : pystr) : M pystr :=
  modify (record (Call_open path)) ;;
  w <- get ;;
  if decide (path ∈ files w) then ret path
  else if decide (path ∈ dirs w) then
    raise (Exn IsADirectoryError (lit "[Errno 21] Is a directory: " ++ quoted path))
  else
    raise (Exn FileNotFoundError (lit "[Errno 2] No such file or directory: " ++ quoted path)).

(** [os.remove(path)] *)
Definition os_remove (path : pystr) : M unit :=
  modify (record (Call_remove path)) ;;
  w <- get ;;
  if decide (path ∈ files w) then modify (set_files (fun fs => fs ∖ {[path]}))
  else if decide (path ∈ dirs w) then
    raise (Exn IsADirectoryError (lit "[Errno 21] Is a directory: " ++ quoted path))
  else
    raise (Exn FileNotFoundError (lit "[Errno 2] No such file or directory: " ++ quoted path)).

(** [Path(path).mkdir(exist_ok=True)] *)
Definition mkdir_exist_ok (path : pystr) : M unit :=
  modify (record (Call_mkdir path)) ;;
  w <- get ;;
  if decide (path ∈ dirs w) then ret tt
  else if decide (path ∈ files w) then
    raise (Exn FileExistsError (lit "[Errno 17] File exists: " ++ quoted path))
  else modify (set_dirs (fun ds => {[path]} ∪ ds)).

(** ** pytube's stream query *)

Definition pystr_eqb (a b : pystr) : bool := bool_decide (a = b).

(** [StreamQuery.filter(only_audio=True, file_extension=ext)]: streams with
    an audio track and no video track, whose subtype is [ext]. *)
Definition filter_only_audio (ext : pystr) (streams : list stream) : list stream :=
  List.filter
    (fun s => includes_audio_track s && negb (includes_video_track s)
              && pystr_eqb (subtype s) ext)
    streams.

(** [StreamQuery.first()] *)
Definition first (streams : list stream) : option stream :=
  match streams with
  | [] => None
  | s :: _ => Some s
  end.

(** ** The program *)

Section Program.

Variable sv : services.

(** [YouTube(url)] *)
Definition pytube_YouTube (url : pystr) : M youtube :=
  ask (Call_YouTube url) (fun w => sv_YouTube sv w url).

(** [YouTubeTranscriptApi.get_transcript(video_id, languages=languages)] *)
Definition get_transcript (vid : pystr) (languages : list pystr) : M (list segment) :=
  ask (Call_get_transcript vid languages) (fun w => sv_get_transcript sv w vid languages).

(** [yt.streams] *)
Definition streams (yt : youtube) : M (list stream) :=
  ask (Call_streams yt) (fun w => sv_streams sv w yt).

(** [stream.download(output_path=output_path)]: on success the file it
    returns has been written.  What a transfer that fails midway leaves on
    disk is not followed. *)
Definition download (s : stream) (output_path : pystr) : M pystr :=
  p <- ask (Call_download s output_path) (fun w => sv_download sv w s output_path) ;;
  modify (set_files (fun fs => {[p]} ∪ fs)) ;;
  ret p.

(** [openai.Audio.transcribe(model, audio_file)['text']] *)
Definition openai_Audio_transcribe (model audio_file : pystr) : M pystr :=
  ask (Call_transcribe model audio_file) (fun w => sv_transcribe sv w model audio_file).

(** [openai.ChatCompletion.create] with the keyword arguments [req] *)
Definition openai_ChatCompletion_create (req : chat_request) : M chat_response :=
  ask (Call_chat req) (fun w => sv_chat sv w req).

(** [st.secrets[key]]: a missing key raises; [KeyError] stands for whichever
    exception the store raises then. *)
Definition st_secrets (key : pystr) : M pystr :=
  match sv_secrets sv key with
  | Some v => ret v
  | None => raise (Exn KeyError (quoted key))
  end.

(** app.py, lines 16-18: the body of the [try] of [get_youtube_transcript]. *)
Definition get_youtube_transcript_try (url : pystr) : M (option pystr) :=
  yt <- pytube_YouTube url ;;
  let video_id := video_id yt in
  transcript <- get_transcript video_id [lit "en"] ;;
  ret (Some (join (lit " ") (map text transcript))).

(** app.py, lines 19-23: the two [except] clauses, tried in order. *)
Definition get_youtube_transcript_except (e : exn) : M (option pystr) :=
  if isinstance e [TranscriptsDisabled; NoTranscriptFound] then ret None
  else
    st (St_error (lit "Error: " ++ exn_msg e)) ;;
    ret None.

(** app.py, lines 13-23 *)
Definition get_youtube_transcript (url : pystr) : M (option pystr) :=
  enter Get_youtube_transcript url ;;
  try_except (get_youtube_transcript_try url) get_youtube_transcript_except.

(** The handler [except Exception as e: st.error(f"<prefix>{e}"); return None]
    shared by the other three stages. *)
Definition report (prefix : pystr) (e : exn) : M (option pystr) :=
  st (St_error (prefix ++ exn_msg e)) ;;
  ret None.

(** app.py, lines 28-34: the body of the [try] of [download_audio]. *)
Definition download_audio_try (url : pystr) : M (option pystr) :=
  yt <- pytube_YouTube url ;;
  all_streams <- streams yt ;;
  let audio_stream := first (filter_only_audio (lit "mp4") all_streams) in
  match audio_stream with
  | Some s =>
      let output_path := lit "temp_audio" in
      mkdir_exist_ok output_path ;;
      p <- download s output_path ;;
      ret (Some p)
  | None => ret None
  end.

(** app.py, lines 25-37 *)
Definition download_audio (url : pystr) : M (option pystr) :=
  enter Download_audio url ;;
  try_except (download_audio_try url) (report (lit "Download error: ")).

(** app.py, lines 42-44: the body of the [try] of [transcribe_audio]. *)
Definition transcribe_audio_try (file_path : pystr) : M (option pystr) :=
  audio_file <- open_rb file_path ;;
  transcript <- openai_Audio_transcribe (lit "whisper-1") audio_file ;;
  ret (Some transcript).

(** app.py, lines 39-47 *)
Definition transcribe_audio (file_path : pystr) : M (option pystr) :=
  enter Transcribe_audio file_path ;;
  try_except (transcribe_audio_try file_path) (report (lit "Transcription error: ")).

(** app.py, lines 49-52 *)
Definition count_tokens (text : pystr) : M Z :=
  tokens <- ask (Call_encode (lit "gpt-3.5-turbo") text)
              (fun w => sv_encode sv w (lit "gpt-3.5-turbo") text) ;;
  ret (Z.of_nat (length tokens)).

Definition system_prompt : pystr :=
  lit "You are a helpful assistant that summarizes video transcripts.".

(** The fixed part of the user message, ending in two line feeds. *)
Definition user_prompt_prefix : pystr :=
  lit "Create a detailed summary with key points in bullet format:" ++ [10%N; 10%N].

(** The text that lines 57-58 leave in [text], given the token count. *)
Definition fit_budget (text : pystr) (n_tokens max_tokens : Z) : pystr :=
  if n_tokens >? max_tokens then slice_to text (char_limit max_tokens) else text.

(** The request of lines 60-68. *)
Definition summary_request (text : pystr) : chat_request :=
  {| model := lit "gpt-3.5-turbo";
     messages :=
       [ {| role := lit "system"; content := system_prompt |};
         {| role := lit "user"; content := user_prompt_prefix ++ text |} ];
     temperature := 3 # 10;
     max_tokens := 500 |}.

(** app.py, lines 57-69: the body of the [try] of [generate_summary]. *)
Definition generate_summary_try (text : pystr) (max_tokens : Z) : M (option pystr) :=
  n <- count_tokens text ;;
  let text := fit_budget text n max_tokens in
  response <- openai_ChatCompletion_create (summary_request text) ;;
  match choices response with
  | c :: _ => ret (Some (content (choice_message c)))
  | [] => raise (Exn IndexError (lit "list index out of range"))
  end.

(** app.py, lines 54-72 *)
Definition generate_summary (text : pystr) (max_tokens : Z) : M (option pystr) :=
  enter Generate_summary text ;;
  try_except (generate_summary_try text max_tokens) (report (lit "Summarization error: ")).

(** The default of the keyword parameter [max_tokens]. *)
Definition default_max_tokens : Z := 3000.

(** app.py, lines 84-91: the transcript, with the audio fallback. *)
Definition acquire_transcript (url : pystr) : M (option pystr) :=
  transcript <- get_youtube_transcript url ;;
  if negb (truthy transcript) then
    audio_path <- download_audio url ;;
    match audio_path with
    | Some p =>
        if truthy_str p then
          transcript <- transcribe_audio p ;;
          os_remove p ;;
          ret transcript
        else ret transcript
    | None => ret transcript
    end
  else ret transcript.

(** app.py, lines 101-111 *)
Definition present_summary (transcript : pystr) (summary : option pystr) : M unit :=
  match summary with
  | Some ((_ :: _) as summary) =>
      st (St_write summary) ;;
      st (St_columns 2) ;;
      st (St_download_button 0 (lit "Download Summary") summary (lit "summary.txt")) ;;
      st (St_download_button 1 (lit "Download Transcript") transcript (lit "transcript.txt"))
  | _ => st (St_error (lit "Failed to generate summary"))
  end.

(** app.py, lines 95-99: the widgets shown before the summary is asked for. *)
Definition present_transcript (transcript : pystr) : M unit :=
  st (St_subheader ([128221%N] ++ lit " Full Transcript")) ;;
  st (St_expander_write (lit "View Transcript") transcript) ;;
  st (St_subheader ([128204%N] ++ lit " AI-Generated Summary")).

(** app.py, lines 93-113 *)
Definition present_results (transcript : option pystr) : M unit :=
  match transcript with
  | Some ((_ :: _) as transcript) =>
      present_transcript transcript ;;
      summary <- generate_summary transcript default_max_tokens ;;
      present_summary transcript summary
  | _ =>
      st (St_error (lit "Could not process video. Please check URL or try another video."))
  end.

(** app.py, lines 81-115: the body of [if st.button(...)]. *)
Definition pipeline (url : pystr) : M unit :=
  if truthy_str url then
    st (St_spinner_enter (lit "Analyzing video...")) ;;
    try_finally
      (transcript <- acquire_transcript url ;;
       present_results transcript)
      (st St_spinner_exit)
  else st (St_warning (lit "Please enter a valid YouTube URL")).

(** app.py as a whole, for the value [url] of the text input and the value
    [clicked] of the button in this run of the script. *)
Definition script (url : pystr) (clicked : bool) : M unit :=
  key <- st_secrets (lit "OPENAI_API_KEY") ;;
  modify (set_api_key (Some key)) ;;
  st (St_set_page_config (lit "YouTube Video Summarizer") (lit "wide")) ;;
  st (St_title ([127909%N] ++ lit " AI-Powered YouTube Video Summarizer")) ;;
  st (St_text_input (lit "Enter YouTube Video URL:") (lit "https://youtube.com/...")) ;;
  st (St_button (lit "Generate Summary")) ;;
  (if clicked then pipeline url else ret tt) ;;
  st (St_markdown (lit "---")) ;;
  st (St_markdown (lit "Built with " ++ [10084%N; 65039%N]
                   ++ lit " using OpenAI, Streamlit, and Python")).

End Program.

(** ** Observations on the logs *)

Definition stage_eqb (a b : stage) : bool :=
  match a, b with
  | Get_youtube_transcript, Get_youtube_transcript
  | Download_audio, Download_audio
  | Transcribe_audio, Transcribe_audio
  | Generate_summary, Generate_summary => true
  | _, _ => false
  end.

(** The stage entries of a log, with their arguments. *)
Definition entries (cs : list call) : list (stage * pystr) :=
  flat_map (fun c => match c with Enter s a => [(s, a)] | _ => [] end) cs.

(** The paths given to [os.remove]. *)
Definition removals (cs : list call) : list pystr :=
  flat_map (fun c => match c with Call_remove p => [p] | _ => [] end) cs.

(** The requests sent to the chat-completion service. *)
Definition chat_requests (cs : list call) : list chat_request :=
  flat_map (fun c => match c with Call_chat r => [r] | _ => [] end) cs.

(** How many times stage [s] was entered. *)
Definition invocations (s : stage) (cs : list call) : nat :=
  length (List.filter (fun e => stage_eqb s (fst e)) (entries cs)).

(** The download buttons among the widgets: file name and contents. *)
Definition downloads (ws : list widget) : list (pystr * pystr) :=
  flat_map (fun x => match x with
                     | St_download_button _ _ data file_name => [(file_name, data)]
                     | _ => []
                     end) ws.

(** The bodies of the [st.error] boxes among the widgets. *)
Definition errors (ws : list widget) : list pystr :=
  flat_map (fun x => match x with St_error body => [body] | _ => [] end) ws.

(** ** The specification's words *)

(** Texts in their order, with one space between consecutive ones. *)
Fixpoint spaced (texts : list pystr) : list pystr :=
  match texts with
  | [] => []
  | [t] => [t]
  | t :: rest => t :: [32%N] :: spaced rest
  end.

Definition space_joined (texts : list pystr) : pystr := concat (spaced texts).

(** An audio-only stream in the MP4 container. *)
Definition audio_only_mp4 (s : stream) : Prop :=
  includes_audio_track s = true /\ includes_video_track s = false /\ subtype s = lit "mp4".

(** The world in which the stages of [pipeline] start: the spinner is shown. *)
Definition spinning (w : world) : world := show (St_spinner_enter (lit "Analyzing video...")) w.

(** A run from [w] to [w'] that entered stage [s] once, with [arg], removed
    nothing and left the file system alone. *)
Definition quiet_run (s : stage) (arg : pystr) (w w' : world) : Prop :=
  (exists d, history w' = d ++ history w /\ entries d = [(s, arg)] /\ removals d = [])
  /\ files w' = files w /\ dirs w' = dirs w.

(** ** Sample services *)

Definition empty_world : world :=
  {| files := ∅; dirs := ∅; openai_api_key := None; ui := []; history := [] |}.

(** A video with captions, a tokenizer with one token per character, and a
    completion service with one fixed answer. *)
Definition captioned (segs : list segment) (answer : pystr) : services :=
  {| sv_secrets := fun _ => Some (lit "sk-test");
     sv_YouTube := fun _ url => Ok {| watch_url := url; video_id := lit "dQw4w9WgXcQ" |};
     sv_get_transcript := fun _ _ _ => Ok segs;
     sv_streams := fun _ _ => Ok [];
     sv_download := fun _ _ _ => Raise (Exn OtherException (lit "no stream"));
     sv_transcribe := fun _ _ _ => Raise (Exn OtherException (lit "no audio"));
     sv_encode := fun _ _ t => Ok t;
     sv_chat := fun _ _ =>
       Ok {| choices := [ {| choice_message := {| role := lit "assistant"; content := answer |} |} ] |} |}.

Definition sample_streams : list stream :=
  [ {| itag := 18; includes_audio_track := true; includes_video_track := true; subtype := lit "mp4" |};
    {| itag := 251; includes_audio_track := true; includes_video_track := false; subtype := lit "webm" |};
    {| itag := 140; includes_audio_track := true; includes_video_track := false; subtype := lit "mp4" |};
    {| itag := 139; includes_audio_track := true; includes_video_track := false; subtype := lit "mp4" |} ].

(** A video whose captions are disabled, with audio streams; [heard] is the
    answer of the speech-to-text service. *)
Definition uncaptioned (heard : result pystr) : services :=
  {| sv_secrets := fun _ => Some (lit "sk-test");
     sv_YouTube := fun _ url => Ok {| watch_url := url; video_id := lit "dQw4w9WgXcQ" |};
     sv_get_transcript := fun _ _ _ => Raise (Exn TranscriptsDisabled (lit "Subtitles are disabled for this video"));
     sv_streams := fun _ _ => Ok sample_streams;
     sv_download := fun _ _ output_path => Ok (output_path ++ lit "/audio.mp4");
     sv_transcribe := fun _ _ _ => heard;
     sv_encode := fun _ _ t => Ok t;
     sv_chat := fun _ _ =>
       Ok {| choices := [ {| choice_message := {| role := lit "assistant"; content := lit "- a point" |} |} ] |} |}.

(** A network that is down: every service raises. *)
Definition offline : services :=
  {| sv_secrets := fun _ => Some (lit "sk-test");
     sv_YouTube := fun _ _ => Raise (Exn OtherException (lit "connection refused"));
     sv_get_transcript := fun _ _ _ => Raise (Exn OtherException (lit "connection refused"));
     sv_streams := fun _ _ => Raise (Exn OtherException (lit "connection refused"));
     sv_download := fun _ _ _ => Raise (Exn OtherException (lit "connection refused"));
     sv_transcribe := fun _ _ _ => Raise (Exn OtherException (lit "connection refused"));
     sv_encode := fun _ _ _ => Raise (Exn OtherException (lit "connection refused"));
     sv_chat := fun _ _ => Raise (Exn OtherException (lit "connection refused")) |}.

Definition sample_url : pystr := lit "https://youtube.com/watch?v=dQw4w9WgXcQ".

Definition hello_segments : list segment :=
  [ {| text := lit "Hello world" |}; {| text := lit "this is" |}; {| text := lit "a test." |} ].

(** 12000 characters, hence 12000 tokens for the sample tokenizer. *)
Definition long_text : pystr := repeat 97%N (120 * 100).

Definition sample_video : youtube :=
  {| watch_url := sample_url; video_id := lit "dQw4w9WgXcQ" |}.

Definition refused : exn := Exn OtherException (lit "connection refused").

(** ** The shape of a run *)

(** What a log entry is, without its arguments. *)
Inductive kind :=
| K_enter (s : stage)
| K_YouTube
| K_get_transcript
| K_streams
| K_mkdir
| K_download
| K_open
| K_transcribe
| K_remove
| K_encode
| K_chat.

Definition kind_of (c : call) : kind :=
  match c with
  | Enter s _ => K_enter s
  | Call_YouTube _ => K_YouTube
  | Call_get_transcript _ _ => K_get_transcript
  | Call_streams _ => K_streams
  | Call_mkdir _ => K_mkdir
  | Call_download _ _ => K_download
  | Call_open _ => K_open
  | Call_transcribe _ _ => K_transcribe
  | Call_remove _ => K_remove
  | Call_encode _ _ => K_encode
  | Call_chat _ => K_chat
  end.

Definition kinds (cs : list call) : list kind := map kind_of cs.

Definition kind_eqb (a b : kind) : bool :=
  match a, b with
  | K_enter s, K_enter s' => stage_eqb s s'
  | K_YouTube, K_YouTube
  | K_get_transcript, K_get_transcript
  | K_streams, K_streams
  | K_mkdir, K_mkdir
  | K_download, K_download
  | K_open, K_open
  | K_transcribe, K_transcribe
  | K_remove, K_remove
  | K_encode, K_encode
  | K_chat, K_chat => true
  | _, _ => false
  end.

(** How many entries of kind [k] a log has. *)
Definition occurrences (k : kind) (cs : list call) : nat :=
  length (List.filter (fun c => kind_eqb (kind_of c) k) cs).

Definition count_kind (k : kind) (ks : list kind) : nat :=
  length (List.filter (fun k' => kind_eqb k' k) ks).

(** The entries one call of each stage can log, oldest first. *)
Definition get_youtube_transcript_shapes : list (list kind) :=
  [ [K_enter Get_youtube_transcript; K_YouTube];
    [K_enter Get_youtube_transcript; K_YouTube; K_get_transcript] ].

Definition download_audio_shapes : list (list kind) :=
  [ [K_enter Download_audio; K_YouTube];
    [K_enter Download_audio; K_YouTube; K_streams];
    [K_enter Download_audio; K_YouTube; K_streams; K_mkdir];
    [K_enter Download_audio; K_YouTube; K_streams; K_mkdir; K_download] ].

Definition transcribe_audio_shapes : list (list kind) :=
  [ [K_enter Transcribe_audio; K_open];
    [K_enter Transcribe_audio; K_open; K_transcribe] ].

Definition generate_summary_shapes : list (list kind) :=
  [ [K_enter Generate_summary; K_encode];
    [K_enter Generate_summary; K_encode; K_chat] ].

(** The entries a run of lines 84-91 can log: the fetcher, then possibly the
    download, then possibly the transcription followed by the removal. *)
Definition acquire_transcript_shapes : list (list kind) :=
  flat_map
    (fun g =>
       g :: flat_map
              (fun d =>
                 (g ++ d)
                 :: map (fun t => g ++ d ++ t ++ [K_remove]) transcribe_audio_shapes)
              download_audio_shapes)
    get_youtube_transcript_shapes.

(** The entries a run of [pipeline] on a URL that is not empty can log. *)
Definition pipeline_shapes : list (list kind) :=
  flat_map (fun a => a :: map (fun s => a ++ s) generate_summary_shapes)
    acquire_transcript_shapes.

(** The parameters the program fixes in its requests. *)
Definition fixed_call (c : call) : Prop :=
  match c with
  | Call_get_transcript _ languages => languages = [lit "en"]
  | Call_mkdir path => path = lit "temp_audio"
  | Call_download _ output_path => output_path = lit "temp_audio"
  | Call_transcribe model _ => model = lit "whisper-1"
  | Call_encode model _ => model = lit "gpt-3.5-turbo"
  | Call_chat req =>
      model req = lit "gpt-3.5-turbo"
      /\ map role (messages req) = [lit "system"; lit "user"]
      /\ temperature req = 3 # 10
      /\ max_tokens req = 500
  | _ => True
  end.

(** What every piece of the program does to the world from [w] to [w'],
    with [d] the entries it logs, newest first: the logs only grow, the
    requests carry the fixed parameters, and no directory disappears. *)
Definition footprint (w w' : world) (d : list call) : Prop :=
  history w' = d ++ history w
  /\ (exists du, ui w' = du ++ ui w)
  /\ Forall fixed_call d
  /\ dirs w ⊆ dirs w'.

(** A video without captions and without any audio-only MP4 stream. *)
Definition silent_video : services :=
  {| sv_secrets := fun _ => Some (lit "sk-test");
     sv_YouTube := fun _ url => Ok {| watch_url := url; video_id := lit "dQw4w9WgXcQ" |};
     sv_get_transcript := fun _ _ _ =>
       Raise (Exn NoTranscriptFound (lit "No transcripts were found"));
     sv_streams := fun _ _ =>
       Ok [ {| itag := 18; includes_audio_track := true; includes_video_track := true;
               subtype := lit "mp4" |} ];
     sv_download := fun _ _ output_path => Ok (output_path ++ lit "/audio.mp4");
     sv_transcribe := fun _ _ _ => Ok (lit "hello");
     sv_encode := fun _ _ t => Ok t;
     sv_chat := fun _ _ => Ok {| choices := [] |} |}.


(** A world in which a regular file sits where the scratch directory goes. *)
Definition scratch_taken : world :=
  {| files := {[lit "temp_audio"]}; dirs := ∅; openai_api_key := None; ui := []; history := [] |}.

(** * Properties *)

Lemma since_app {A} (d h : list A) : since h (d ++ h) = rev d.
Proof.
  unfold since. rewrite length_app, Nat.add_sub.
  now rewrite firstn_app, Nat.sub_diag, firstn_all, firstn_O, app_nil_r.
Qed.

Lemma extends_nil {A} (h : list A) : h = [] ++ h.
Proof. reflexivity. Qed.

Lemma extends_cons {A} (c : A) (h d h0 : list A) : h = d ++ h0 -> c :: h = (c :: d) ++ h0.
Proof. intros ->. reflexivity. Qed.

Lemma extends_trans {A} (h0 h1 h2 d1 d2 : list A) :
  h1 = d1 ++ h0 -> h2 = d2 ++ h1 -> h2 = (d2 ++ d1) ++ h0.
Proof. intros -> ->. now rewrite app_assoc. Qed.

Lemma entries_app (a b : list call) : entries (a ++ b) = entries a ++ entries b.
Proof. apply flat_map_app. Qed.

Lemma removals_app (a b : list call) : removals (a ++ b) = removals a ++ removals b.
Proof. apply flat_map_app. Qed.

Lemma join_space_joined (texts : list pystr) : join (lit " ") texts = space_joined texts.
Proof.
  unfold space_joined.
  induction texts as [|t [|t' rest] IH]; simpl in *.
  - reflexivity.
  - now rewrite app_nil_r.
  - now rewrite IH.
Qed.

Lemma entries_rev (d : list call) : entries (rev d) = rev (entries d).
Proof.
  induction d as [|c d IH]; [reflexivity|].
  simpl. rewrite entries_app, IH. destruct c; simpl; now rewrite ?app_nil_r.
Qed.

Lemma removals_rev (d : list call) : removals (rev d) = rev (removals d).
Proof.
  induction d as [|c d IH]; [reflexivity|].
  simpl. rewrite removals_app, IH. destruct c; simpl; now rewrite ?app_nil_r.
Qed.

Lemma invocations_rev (s : stage) (d : list call) : invocations s (rev d) = invocations s d.
Proof. unfold invocations. now rewrite entries_rev, List.filter_rev, List.length_rev. Qed.

Lemma invocations_app (s : stage) (a b : list call) :
  invocations s (a ++ b) = (invocations s a + invocations s b)%nat.
Proof. unfold invocations. now rewrite entries_app, List.filter_app, List.length_app. Qed.

(** The stage entries decide the invocation counts. *)
Lemma invocations_entries (s : stage) (a b : list call) :
  entries a = entries b -> invocations s a = invocations s b.
Proof. unfold invocations. now intros ->. Qed.

Lemma audio_only_mp4_filter (s : stream) :
  includes_audio_track s && negb (includes_video_track s) && pystr_eqb (subtype s) (lit "mp4") = true
  <-> audio_only_mp4 s.
Proof.
  unfold audio_only_mp4, pystr_eqb.
  rewrite !andb_true_iff, negb_true_iff, bool_decide_eq_true. tauto.
Qed.

Lemma filter_only_audio_none (ss : list stream) :
  Forall (fun s => ~ audio_only_mp4 s) ss -> filter_only_audio (lit "mp4") ss = [].
Proof.
  unfold filter_only_audio.
  induction 1 as [|s ss Hs _ IH]; [reflexivity|].
  cbn [List.filter]. rewrite IH.
  destruct (includes_audio_track s && negb (includes_video_track s)
            && pystr_eqb (subtype s) (lit "mp4")) eqn:E; [|reflexivity].
  now apply audio_only_mp4_filter in E.
Qed.

Lemma filter_only_audio_first (pre post : list stream) (s : stream) :
  Forall (fun s' => ~ audio_only_mp4 s') pre -> audio_only_mp4 s ->
  first (filter_only_audio (lit "mp4") (pre ++ s :: post)) = Some s.
Proof.
  intros Hpre Hs. unfold filter_only_audio. rewrite List.filter_app.
  fold (filter_only_audio (lit "mp4") pre). rewrite filter_only_audio_none by assumption.
  cbn [List.filter app]. apply audio_only_mp4_filter in Hs. now rewrite Hs.
Qed.

Lemma since_refl {A} (h : list A) : since h h = [].
Proof. apply (since_app [] h). Qed.

Lemma in_entries (s : stage) (a : pystr) (cs : list call) :
  In (Enter s a) cs <-> In (s, a) (entries cs).
Proof.
  unfold entries. rewrite in_flat_map. split.
  - intros H. exists (Enter s a). split; [assumption|now left].
  - intros (c & Hc & Hin). destruct c; simpl in Hin; try tauto.
    destruct Hin as [Hin|[]]. now injection Hin as -> ->.
Qed.

Lemma in_removals (p : pystr) (cs : list call) :
  In (Call_remove p) cs <-> In p (removals cs).
Proof.
  unfold removals. rewrite in_flat_map. split.
  - intros H. exists (Call_remove p). split; [assumption|now left].
  - intros (c & Hc & Hin). destruct c; simpl in Hin; try tauto.
    destruct Hin as [Hin|[]]. now subst.
Qed.

Opaque lit.

(** Unfolding of the monad and of the primitive operations. *)
Ltac py_unfold :=
  unfold enter, st in *;
  unfold bind, ret, raise, try_except, try_finally, modify, ask, get in *.

(** Case analysis on the next thing the run depends on. *)
Ltac py_case :=
  match goal with
  | |- context [match ?x with _ => _ end] =>
      lazymatch x with
      | context [match _ with _ => _ end] => fail
      | _ => destruct x eqn:?
      end
  end.

Ltac extends_tac := repeat (apply extends_cons); apply extends_nil.

Section Properties.

Variable sv : services.

(** *** What one call of each stage does *)

Lemma get_youtube_transcript_run url w :
  exists r w', get_youtube_transcript sv url w = (Ok r, w')
               /\ quiet_run Get_youtube_transcript url w w'.
Proof.
  unfold get_youtube_transcript, get_youtube_transcript_try, get_youtube_transcript_except,
    pytube_YouTube, get_transcript, quiet_run.
  py_unfold. simpl.
  repeat py_case; simpl;
    (do 2 eexists; split; [reflexivity|]; simpl;
     split; [eexists; split; [extends_tac|split; reflexivity]|split; reflexivity]).
Qed.

Lemma transcribe_audio_run path w :
  exists r w', transcribe_audio sv path w = (Ok r, w')
               /\ quiet_run Transcribe_audio path w w'.
Proof.
  unfold transcribe_audio, transcribe_audio_try, report, open_rb,
    openai_Audio_transcribe, quiet_run.
  py_unfold. simpl.
  repeat py_case; simpl;
    (do 2 eexists; split; [reflexivity|]; simpl;
     split; [eexists; split; [extends_tac|split; reflexivity]|split; reflexivity]).
Qed.

Lemma generate_summary_run text k w :
  exists r w', generate_summary sv text k w = (Ok r, w')
               /\ quiet_run Generate_summary text w w'.
Proof.
  unfold generate_summary, generate_summary_try, report, count_tokens,
    openai_ChatCompletion_create, quiet_run.
  py_unfold. simpl.
  repeat py_case; simpl;
    (do 2 eexists; split; [reflexivity|]; simpl;
     split; [eexists; split; [extends_tac|split; reflexivity]|split; reflexivity]).
Qed.

(** [download_audio] enters once, removes nothing, and the only file it can
    add is the one it returns. *)
Lemma download_audio_run url w :
  exists r w', download_audio sv url w = (Ok r, w')
    /\ (exists d, history w' = d ++ history w
                  /\ entries d = [(Download_audio, url)] /\ removals d = [])
    /\ (match r with
        | Some p => p ∈ files w'
        | None => files w' = files w
        end).
Proof.
  unfold download_audio, download_audio_try, report, pytube_YouTube, streams,
    mkdir_exist_ok, download.
  py_unfold. simpl.
  repeat py_case; simpl;
    (do 2 eexists; split; [reflexivity|]; simpl;
     split; [eexists; split; [extends_tac|split; reflexivity]|]);
    try reflexivity; apply elem_of_union_l; now apply elem_of_singleton.
Qed.

(** [os.remove(p)]: whether it succeeds or raises, [p] is not a file
    afterwards and no file has appeared. *)
Lemma os_remove_run p w :
  exists r w', os_remove p w = (r, w')
    /\ history w' = Call_remove p :: history w
    /\ (p ∉ files w') /\ (files w' ⊆ files w) /\ ui w' = ui w
    /\ (p ∈ files w -> r = Ok tt).
Proof.
  unfold os_remove. py_unfold. cbn [files dirs record].
  destruct (decide (p ∈ files w)) as [Hin|Hout];
    [|destruct (decide (p ∈ dirs w)) as [Hdir|Hdir]];
    do 2 eexists; (split; [reflexivity|]);
    cbn [files dirs ui history record set_files];
    (split; [reflexivity|]).
  - split; [|split; [|split; [reflexivity|reflexivity]]].
    + rewrite elem_of_difference, elem_of_singleton. tauto.
    + apply subseteq_difference_l. reflexivity.
  - split; [exact Hout|]. split; [reflexivity|]. split; [reflexivity|]. intros H. contradiction.
  - split; [exact Hout|]. split; [reflexivity|]. split; [reflexivity|]. intros H. contradiction.
Qed.

(** The first [except] clause: nothing is displayed. *)
Lemma expected_absence_is_silent url w yt e :
  let w1 := record (Enter Get_youtube_transcript url) w in
  let w2 := record (Call_YouTube url) w1 in
  sv_YouTube sv w1 url = Ok yt ->
  sv_get_transcript sv w2 (video_id yt) [lit "en"] = Raise e ->
  exn_cls e = TranscriptsDisabled \/ exn_cls e = NoTranscriptFound ->
  get_youtube_transcript sv url w
  = (Ok None, record (Call_get_transcript (video_id yt) [lit "en"]) w2).
Proof.
  intros w1 w2 Hyt Hraise Hcls.
  unfold get_youtube_transcript, get_youtube_transcript_try, get_youtube_transcript_except,
    pytube_YouTube, get_transcript.
  py_unfold. fold w1. rewrite Hyt. fold w2. rewrite Hraise.
  unfold isinstance.
  destruct Hcls as [-> | ->]; reflexivity.
Qed.

(** What [generate_summary] displays: nothing, or one error box when it
    returns absent. *)
Lemma generate_summary_ui text k w :
  exists r w',
    generate_summary sv text k w = (Ok r, w')
    /\ (ui w' = ui w \/ (r = None /\ exists msg, ui w' = St_error msg :: ui w)).
Proof.
  unfold generate_summary, generate_summary_try, report, count_tokens,
    openai_ChatCompletion_create.
  py_unfold. simpl.
  repeat py_case; simpl; do 2 eexists; (split; [reflexivity|]); simpl; eauto.
Qed.

(** *** The driver *)

(** Lines 84-91.  The run never raises: the file handed to [os.remove] was
    written by the download and nothing removed it in between. *)
Lemma acquire_transcript_run url w r1 w1 :
  get_youtube_transcript sv url w = (Ok r1, w1) ->
  exists r w' d,
    acquire_transcript sv url w = (Ok r, w')
    /\ history w' = d ++ history w
    /\ (forall p, In (Transcribe_audio, p) (entries d) -> In p (removals d) /\ p ∉ files w')
    /\ (forall t, ~ In (Generate_summary, t) (entries d))
    /\ invocations Download_audio d = (if truthy r1 then 0 else 1)%nat
    /\ (truthy r1 = false -> In (Download_audio, url) (entries d))
    /\ (truthy r1 = true -> r = r1).
Proof.
  intros H1.
  destruct (get_youtube_transcript_run url w) as (r1' & w1' & E1 & (d1 & Hd1 & En1 & Rm1) & _).
  rewrite H1 in E1. injection E1 as <- <-.
  unfold acquire_transcript, bind. rewrite H1.
  destruct (truthy r1) eqn:T1; simpl.
  { exists r1, w1, d1. unfold ret, invocations. rewrite En1, Rm1. simpl.
    repeat split; try easy; intros; intuition congruence. }
  destruct (download_audio_run url w1) as (r2 & w2 & E2 & (d2 & Hd2 & En2 & Rm2) & F2).
  rewrite E2.
  assert (Hq : forall r, r = r1 ->
    exists r' w' d, (Ok r, w2) = (Ok r', w') /\ history w' = d ++ history w
    /\ (forall p, In (Transcribe_audio, p) (entries d) -> In p (removals d) /\ p ∉ files w')
    /\ (forall t, ~ In (Generate_summary, t) (entries d))
    /\ invocations Download_audio d = 1%nat
    /\ (false = false -> In (Download_audio, url) (entries d))
    /\ (false = true -> r' = r1)).
  { intros r ->. exists r1, w2, (d2 ++ d1). split; [reflexivity|].
    split; [now apply (extends_trans _ _ _ _ _ Hd1 Hd2)|].
    unfold invocations. rewrite entries_app, removals_app, En1, En2, Rm1, Rm2. simpl.
    repeat split; try easy; intros; intuition congruence. }
  destruct r2 as [[|c p]|]; simpl; unfold ret; [now apply Hq| |now apply Hq].
  destruct (transcribe_audio_run (c :: p) w2)
    as (r3 & w3 & E3 & (d3 & Hd3 & En3 & Rm3) & F3 & _).
  rewrite E3.
  destruct (os_remove_run (c :: p) w3) as (r4 & w4 & E4 & Hd4 & Gone & _ & _ & Ok4).
  rewrite E4. rewrite Ok4 by (rewrite F3; exact F2).
  exists r3, w4, (Call_remove (c :: p) :: d3 ++ d2 ++ d1). split; [reflexivity|].
  split.
  { rewrite Hd4, Hd3, Hd2, Hd1. simpl. now rewrite <- !app_assoc. }
  unfold invocations. simpl. rewrite !entries_app, !removals_app, En1, En2, En3, Rm1, Rm2, Rm3.
  simpl. split; [|split; [|split; [reflexivity|split; [tauto|discriminate]]]].
  - intros q [H|[H|[H|[]]]]; try discriminate. injection H as <-. split; [now left|exact Gone].
  - intros t [H|[H|[H|[]]]]; discriminate.
Qed.

(** Lines 93-113: at most one stage runs, the summarizer, and only on a
    transcript that is present and not empty. *)
Lemma present_results_run transcript w :
  exists w' d,
    present_results sv transcript w = (Ok tt, w')
    /\ history w' = d ++ history w
    /\ files w' = files w
    /\ removals d = []
    /\ entries d = match transcript with
                   | Some ((_ :: _) as t) => [(Generate_summary, t)]
                   | _ => []
                   end.
Proof.
  unfold present_results.
  destruct transcript as [[|c t]|];
    try (do 2 eexists; split; [reflexivity|]; simpl;
         split; [apply extends_nil|repeat split; reflexivity]).
  unfold bind at 1. unfold present_transcript. py_unfold. cbv beta iota.
  set (w0 := show _ (show _ (show _ w))).
  destruct (generate_summary_run (c :: t) default_max_tokens w0)
    as (r & w1 & E & (d & Hd & En & Rm) & F & _).
  rewrite E. unfold present_summary. py_unfold.
  destruct r as [[|c' s']|]; (do 2 eexists; split; [reflexivity|]; simpl;
    split; [exact Hd|split; [exact F|split; assumption]]).
Qed.

(** Lines 81-115 for a URL that is not empty. *)
Lemma pipeline_run url w r1 w1 :
  url <> [] ->
  get_youtube_transcript sv url (spinning w) = (Ok r1, w1) ->
  exists t w' d,
    pipeline sv url w = (Ok tt, w')
    /\ history w' = d ++ history w
    /\ acquire_transcript sv url (spinning w) = (Ok t, snd (acquire_transcript sv url (spinning w)))
    /\ (forall p, In (Transcribe_audio, p) (entries d) -> In p (removals d) /\ p ∉ files w')
    /\ (forall t', In (Generate_summary, t') (entries d) -> t' <> [] /\ t = Some t')
    /\ invocations Download_audio d = (if truthy r1 then 0 else 1)%nat
    /\ (truthy r1 = false -> In (Download_audio, url) (entries d)).
Proof.
  intros Hurl H1.
  destruct (acquire_transcript_run url (spinning w) r1 w1 H1)
    as (t & w2 & d2 & E2 & Hd2 & Rem2 & NoSum2 & Inv2 & Fall2 & _).
  destruct (present_results_run t w2) as (w3 & d3 & E3 & Hd3 & F3 & Rm3 & En3).
  unfold pipeline. destruct url as [|c url]; [congruence|]. simpl.
  unfold bind at 1. unfold st at 1, modify at 1. fold (spinning w).
  unfold try_finally, bind. rewrite E2, E3. unfold st, modify.
  exists t, (show St_spinner_exit w3), (d3 ++ d2). split; [reflexivity|].
  split; [simpl; now apply (extends_trans _ _ _ _ _ Hd2 Hd3)|].
  split; [reflexivity|].
  rewrite invocations_app, entries_app, removals_app, Rm3. simpl.
  split; [|split; [|split]].
  - intros p Hp. apply in_app_or in Hp. destruct Hp as [Hp|Hp].
    + rewrite En3 in Hp. destruct t as [[|c' t]|]; simpl in Hp; try tauto.
      destruct Hp as [Hp|[]]; discriminate.
    + rewrite F3. now apply Rem2.
  - intros t' Hp. apply in_app_or in Hp. destruct Hp as [Hp|Hp].
    + rewrite En3 in Hp. destruct t as [[|c' t]|]; simpl in Hp; try tauto.
      destruct Hp as [Hp|[]]. injection Hp as <-. now split.
    + now apply NoSum2 in Hp.
  - rewrite Inv2. unfold invocations. rewrite En3.
    now destruct t as [[|c' t]|].
  - intros T. apply in_or_app. right. now apply Fall2.
Qed.

(** *** The stages *)

(** C3: when the transcript service returns a list of timed segments for the
    video, the Transcript Fetcher returns the texts of the segments, in their
    original order, joined with single spaces (and displays nothing). *)
Theorem transcript_is_space_joined url w yt segs :
  let w1 := record (Enter Get_youtube_transcript url) w in
  let w2 := record (Call_YouTube url) w1 in
  sv_YouTube sv w1 url = Ok yt ->
  sv_get_transcript sv w2 (video_id yt) [lit "en"] = Ok segs ->
  get_youtube_transcript sv url w
  = (Ok (Some (space_joined (map text segs))),
     record (Call_get_transcript (video_id yt) [lit "en"]) w2).
Proof.
  intros w1 w2 Hyt Hsegs.
  unfold get_youtube_transcript, get_youtube_transcript_try, pytube_YouTube, get_transcript.
  py_unfold. fold w1. rewrite Hyt. fold w2. rewrite Hsegs.
  now rewrite join_space_joined.
Qed.

(** C2: with the default budget of 3000 tokens, a text of at most 3000 tokens
    is sent to the completion service unmodified: the one request made carries,
    after the fixed instruction of the user message, the whole text; a text of
    more than 3000 tokens is sent cut to its first floor(3000 x 3.5) = 10500
    characters, hence at most 10500 characters. *)
Theorem summarizer_truncates_to_budget text w tokens :
  let w1 := record (Enter Generate_summary text) w in
  let n := Z.of_nat (length tokens) in
  let w' := snd (generate_summary sv text default_max_tokens w) in
  let request_sending sent :=
    {| model := lit "gpt-3.5-turbo";
       messages :=
         [ {| role := lit "system";
              content := lit "You are a helpful assistant that summarizes video transcripts." |};
           {| role := lit "user";
              content := lit "Create a detailed summary with key points in bullet format:"
                         ++ [10%N; 10%N] ++ sent |} ];
       temperature := 3 # 10;
       max_tokens := 500 |} in
  sv_encode sv w1 (lit "gpt-3.5-turbo") text = Ok tokens ->
  (n <= 3000 -> chat_requests (calls_since w w') = [request_sending text])
  /\ (3000 < n ->
      chat_requests (calls_since w w') = [request_sending (firstn (Z.to_nat 10500) text)]
      /\ Z.of_nat (length (firstn (Z.to_nat 10500) text)) <= 10500
      /\ char_limit default_max_tokens = Qfloor (inject_Z 3000 * (35 # 10))
      /\ char_limit default_max_tokens = 10500).
Proof.
  intros w1 n w' request_sending Henc.
  assert (Hreq : forall sent, summary_request sent = request_sending sent).
  { intros sent. unfold summary_request, user_prompt_prefix, system_prompt.
    subst request_sending. cbv beta. now rewrite <- app_assoc. }
  assert (Hrun : forall sent, fit_budget text n default_max_tokens = sent ->
                 chat_requests (calls_since w w') = [request_sending sent]).
  { intros sent Hsent. rewrite <- Hreq. subst w'.
    unfold generate_summary, generate_summary_try, count_tokens,
      openai_ChatCompletion_create, report.
    py_unfold. fold w1. rewrite Henc. fold n. rewrite Hsent.
    unfold calls_since.
    set (req := summary_request sent).
    set (w2 := record (Call_encode _ _) w1).
    destruct (sv_chat sv w2 req) as [[[|c cs]]|e]; cbn [snd history record show choices];
      subst w2 w1; cbn [history record];
      match goal with
      | |- context [since ?h (?a :: ?b :: ?c :: ?h)] =>
          change (a :: b :: c :: h) with ([a; b; c] ++ h)
      end; rewrite since_app; reflexivity. }
  split.
  - intros Hn. apply Hrun. unfold fit_budget, default_max_tokens.
    destruct (Z.gtb_spec n 3000); [lia|reflexivity].
  - intros Hn. split; [|split; [|split]].
    + apply Hrun. unfold fit_budget, default_max_tokens.
      destruct (Z.gtb_spec n 3000); [reflexivity|lia].
    + rewrite length_firstn. lia.
    + reflexivity.
    + reflexivity.
Qed.

(** C8: the Summarizer sends one request to the chat-completion service, made
    of the fixed system message and of the user message that prefixes the
    bullet-summary instruction to the (budget-fitted) transcript text, with
    temperature 0.3 and at most 500 output tokens, and it returns the text of
    the first completion.  This holds for every text, empty or not. *)
Theorem summarizer_request_and_answer text w tokens resp c rest :
  let w1 := record (Enter Generate_summary text) w in
  let w2 := record (Call_encode (lit "gpt-3.5-turbo") text) w1 in
  let sent := fit_budget text (Z.of_nat (length tokens)) default_max_tokens in
  let req :=
    {| model := lit "gpt-3.5-turbo";
       messages :=
         [ {| role := lit "system";
              content := lit "You are a helpful assistant that summarizes video transcripts." |};
           {| role := lit "user";
              content := lit "Create a detailed summary with key points in bullet format:"
                         ++ [10%N; 10%N] ++ sent |} ];
       temperature := 3 # 10;
       max_tokens := 500 |} in
  sv_encode sv w1 (lit "gpt-3.5-turbo") text = Ok tokens ->
  sv_chat sv w2 req = Ok resp ->
  choices resp = c :: rest ->
  generate_summary sv text default_max_tokens w
  = (Ok (Some (content (choice_message c))), record (Call_chat req) w2)
  /\ chat_requests (calls_since w (record (Call_chat req) w2)) = [req]
  /\ length (messages req) = 2%nat.
Proof.
  intros w1 w2 sent req Henc Hchat Hc.
  assert (Hreq : summary_request sent = req).
  { unfold summary_request, user_prompt_prefix, system_prompt. subst req.
    now rewrite <- app_assoc. }
  split; [|split; [|reflexivity]].
  - unfold generate_summary, generate_summary_try, count_tokens,
      openai_ChatCompletion_create, report.
    py_unfold. fold w1. rewrite Henc. fold w2. fold sent. rewrite Hreq, Hchat, Hc.
    reflexivity.
  - unfold calls_since. subst w2 w1. cbn [history record].
    match goal with
    | |- context [since ?h (?a :: ?b :: ?c :: ?h)] =>
        change (a :: b :: c :: h) with ([a; b; c] ++ h)
    end.
    now rewrite since_app.
Qed.

(** C7: the Audio Fallback Extractor takes the first stream, in the order
    the video offers them, that is audio-only in the MP4 container; it returns
    absent (without downloading anything) when there is none; otherwise it
    makes sure the fixed scratch directory [temp_audio] exists, creating it if
    missing, and downloads the selected stream into it, returning the path of
    the downloaded file.  The scratch path must not be taken by a regular
    file. *)
Theorem download_audio_selects_first_mp4_audio url w yt ss :
  let w1 := record (Enter Download_audio url) w in
  let w2 := record (Call_YouTube url) w1 in
  let w3 := record (Call_streams yt) w2 in
  let scratch := lit "temp_audio" in
  sv_YouTube sv w1 url = Ok yt ->
  sv_streams sv w2 yt = Ok ss ->
  (Forall (fun s => ~ audio_only_mp4 s) ss -> download_audio sv url w = (Ok None, w3))
  /\ (forall pre s post,
        ss = pre ++ s :: post ->
        Forall (fun s' => ~ audio_only_mp4 s') pre ->
        audio_only_mp4 s ->
        scratch ∉ files w ->
        let w4 := snd (mkdir_exist_ok scratch w3) in
        let w' := snd (download_audio sv url w) in
        calls_since w w'
        = [ Enter Download_audio url; Call_YouTube url; Call_streams yt;
            Call_mkdir scratch; Call_download s scratch ]
        /\ dirs w' = {[scratch]} ∪ dirs w
        /\ match sv_download sv w4 s scratch with
           | Ok p => download_audio sv url w = (Ok (Some p), w') /\ p ∈ files w'
           | Raise e =>
               download_audio sv url w = (Ok None, w')
               /\ ui w' = St_error (lit "Download error: " ++ exn_msg e) :: ui w
           end).
Proof.
  intros w1 w2 w3 scratch Hyt Hss. split.
  - intros Hnone.
    unfold download_audio, download_audio_try, pytube_YouTube, streams.
    py_unfold. fold w1. rewrite Hyt. fold w2. rewrite Hss. fold w3.
    now rewrite filter_only_audio_none.
  - intros pre s post -> Hpre Hs Hfree w4 w'.
    assert (Hsel := filter_only_audio_first pre post s Hpre Hs).
    subst w' w4.
    unfold download_audio, download_audio_try, pytube_YouTube, streams, download,
      mkdir_exist_ok, report.
    py_unfold. fold w1. rewrite Hyt. fold w2. rewrite Hss. fold w3. rewrite Hsel.
    fold scratch. unfold calls_since.
    change (files (record (Call_mkdir scratch) w3)) with (files w).
    change (dirs (record (Call_mkdir scratch) w3)) with (dirs w).
    destruct (decide (scratch ∈ files w)) as [Hin|_]; [contradiction|].
    destruct (decide (scratch ∈ dirs w)) as [Hdir|Hdir]; cbn [snd];
      match goal with
      | |- context [sv_download sv ?w0 s scratch] =>
          destruct (sv_download sv w0 s scratch) as [p|e]
      end; cbn [snd fst history dirs files ui record show set_files set_dirs];
      subst w3 w2 w1; cbn [history dirs files ui record show set_files set_dirs];
      (split; [match goal with
               | |- since ?h (?a :: ?b :: ?c :: ?d :: ?e :: ?h) = _ =>
                   change (a :: b :: c :: d :: e :: h) with ([a; b; c; d; e] ++ h)
               end; now rewrite since_app|]);
      (split; [first [reflexivity | symmetry; apply subseteq_union_1_L;
                                    now apply singleton_subseteq_l]|]);
      split; try reflexivity; apply elem_of_union_l; now apply elem_of_singleton.
Qed.

(** C5: no exception escapes a stage: each of the four stages returns a
    value whatever the services do.  When the transcript service reports that
    transcripts are disabled or that none was found, the Transcript Fetcher
    returns absent and displays nothing; any other exception raised inside a
    stage makes the stage return absent and display an error message made of
    the stage's prefix and the text of the exception. *)
Theorem stages_catch_every_exception :
  (forall url w, exists r w', get_youtube_transcript sv url w = (Ok r, w'))
  /\ (forall url w, exists r w', download_audio sv url w = (Ok r, w'))
  /\ (forall path w, exists r w', transcribe_audio sv path w = (Ok r, w'))
  /\ (forall text k w, exists r w', generate_summary sv text k w = (Ok r, w'))
  /\ (forall url w yt e,
        let w1 := record (Enter Get_youtube_transcript url) w in
        let w2 := record (Call_YouTube url) w1 in
        sv_YouTube sv w1 url = Ok yt ->
        sv_get_transcript sv w2 (video_id yt) [lit "en"] = Raise e ->
        exn_cls e = TranscriptsDisabled \/ exn_cls e = NoTranscriptFound ->
        exists w', get_youtube_transcript sv url w = (Ok None, w') /\ ui w' = ui w)
  /\ (forall url w e w1,
        get_youtube_transcript_try sv url (record (Enter Get_youtube_transcript url) w)
        = (Raise e, w1) ->
        exn_cls e <> TranscriptsDisabled -> exn_cls e <> NoTranscriptFound ->
        get_youtube_transcript sv url w
        = (Ok None, show (St_error (lit "Error: " ++ exn_msg e)) w1))
  /\ (forall url w e w1,
        download_audio_try sv url (record (Enter Download_audio url) w) = (Raise e, w1) ->
        download_audio sv url w
        = (Ok None, show (St_error (lit "Download error: " ++ exn_msg e)) w1))
  /\ (forall path w e w1,
        transcribe_audio_try sv path (record (Enter Transcribe_audio path) w) = (Raise e, w1) ->
        transcribe_audio sv path w
        = (Ok None, show (St_error (lit "Transcription error: " ++ exn_msg e)) w1))
  /\ (forall text k w e w1,
        generate_summary_try sv text k (record (Enter Generate_summary text) w) = (Raise e, w1) ->
        generate_summary sv text k w
        = (Ok None, show (St_error (lit "Summarization error: " ++ exn_msg e)) w1)).
Proof.
  repeat apply conj.
  - intros url w. destruct (get_youtube_transcript_run url w) as (r & w' & E & _). eauto.
  - intros url w. destruct (download_audio_run url w) as (r & w' & E & _). eauto.
  - intros path w. destruct (transcribe_audio_run path w) as (r & w' & E & _). eauto.
  - intros text k w. destruct (generate_summary_run text k w) as (r & w' & E & _). eauto.
  - intros url w yt e w1 w2 Hyt Hraise Hcls.
    eexists. split; [now apply (expected_absence_is_silent url w yt e)|reflexivity].
  - intros url w e w1 Htry H1 H2.
    unfold get_youtube_transcript, get_youtube_transcript_except, isinstance.
    py_unfold. rewrite Htry.
    destruct (exn_cls e); simpl; congruence.
  - intros url w e w1 Htry. unfold download_audio, report. py_unfold. now rewrite Htry.
  - intros path w e w1 Htry. unfold transcribe_audio, report. py_unfold. now rewrite Htry.
  - intros text k w e w1 Htry. unfold generate_summary, report. py_unfold. now rewrite Htry.
Qed.

(** *** The pipeline *)

(** The calls of a run of [pipeline] on a URL that is not empty. *)
Lemma pipeline_calls url w :
  url <> [] ->
  exists r1 w1 t d,
    get_youtube_transcript sv url (spinning w) = (Ok r1, w1)
    /\ acquire_transcript sv url (spinning w)
       = (Ok t, snd (acquire_transcript sv url (spinning w)))
    /\ calls_since w (snd (pipeline sv url w)) = rev d
    /\ (forall p, In (Transcribe_audio, p) (entries d) ->
                  In p (removals d) /\ p ∉ files (snd (pipeline sv url w)))
    /\ (forall t', In (Generate_summary, t') (entries d) -> t' <> [] /\ t = Some t')
    /\ invocations Download_audio d = (if truthy r1 then 0 else 1)%nat
    /\ (truthy r1 = false -> In (Download_audio, url) (entries d)).
Proof.
  intros Hurl.
  destruct (get_youtube_transcript_run url (spinning w)) as (r1 & w1 & E1 & _).
  destruct (pipeline_run url w r1 w1 Hurl E1) as (t & w' & d & E & Hd & Rest).
  exists r1, w1, t, d. rewrite E. cbn [snd].
  split; [exact E1|]. destruct Rest as (Ht & Rest). split; [exact Ht|].
  split; [|exact Rest].
  unfold calls_since. rewrite Hd. apply since_app.
Qed.

(** C1: in every run of the pipeline in which the transcription stage was
    entered on a file, whether the transcription succeeded or failed, the
    driver has called [os.remove] on that file and the file does not exist
    when the run ends. *)
Theorem audio_file_removed_after_transcription url w p :
  let w' := snd (pipeline sv url w) in
  In (Enter Transcribe_audio p) (calls_since w w') ->
  In (Call_remove p) (calls_since w w') /\ p ∉ files w'.
Proof.
  intros w' Hin. subst w'.
  destruct url as [|c url].
  { unfold pipeline in Hin. simpl in Hin. unfold calls_since in Hin. simpl in Hin.
    rewrite since_refl in Hin. destruct Hin. }
  destruct (pipeline_calls (c :: url) w) as (r1 & w1 & t & d & _ & _ & Hd & Rem & _);
    [discriminate|].
  rewrite Hd in *. apply in_rev in Hin. apply in_entries in Hin.
  destruct (Rem p Hin) as [Hr Hgone]. split; [|exact Hgone].
  apply in_rev. rewrite rev_involutive. now apply in_removals.
Qed.

(** C4, amended: in a run of the pipeline on a URL that is not empty, the
    Audio Fallback Extractor is invoked exactly once when the result of the
    Transcript Fetcher is absent or the empty string, and never when it is a
    string that is not empty; in particular it is invoked exactly once when
    the transcript service reports that transcripts are disabled. *)
Theorem fallback_iff_no_usable_transcript url w :
  url <> [] ->
  let n := invocations Download_audio (calls_since w (snd (pipeline sv url w))) in
  (forall r1 w1,
      get_youtube_transcript sv url (spinning w) = (Ok r1, w1) ->
      n = match r1 with
          | Some (_ :: _) => 0%nat
          | _ => 1%nat
          end)
  /\ (forall yt e,
        let w1 := record (Enter Get_youtube_transcript url) (spinning w) in
        let w2 := record (Call_YouTube url) w1 in
        sv_YouTube sv w1 url = Ok yt ->
        sv_get_transcript sv w2 (video_id yt) [lit "en"] = Raise e ->
        exn_cls e = TranscriptsDisabled ->
        n = 1%nat).
Proof.
  intros Hurl n.
  destruct (pipeline_calls url w Hurl) as (r1 & w1 & t & d & E1 & _ & Hd & _ & _ & Inv & _).
  assert (Hn : n = (if truthy r1 then 0 else 1)%nat).
  { subst n. now rewrite Hd, invocations_rev. }
  split.
  - intros r1' w1' E1'. rewrite E1 in E1'. injection E1' as <- <-.
    rewrite Hn. now destruct r1 as [[|c s]|].
  - intros yt e w1' w2' Hyt Hraise Hcls.
    assert (E' := expected_absence_is_silent url (spinning w) yt e Hyt Hraise (or_introl Hcls)).
    rewrite E1 in E'. injection E' as -> _. exact Hn.
Qed.

(** C6: the Summarizer is only ever invoked on the transcript the first
    stages ended with, and that transcript is present and not empty; and when
    the result of the Transcript Fetcher is absent or the empty string, the
    pipeline goes to the Audio Fallback Extractor. *)
Theorem no_empty_transcript_summarized url w :
  let w' := snd (pipeline sv url w) in
  (forall t, In (Enter Generate_summary t) (calls_since w w') ->
             t <> [] /\ fst (acquire_transcript sv url (spinning w)) = Ok (Some t))
  /\ (forall r1 w1,
        url <> [] ->
        get_youtube_transcript sv url (spinning w) = (Ok r1, w1) ->
        r1 = None \/ r1 = Some [] ->
        In (Enter Download_audio url) (calls_since w w')).
Proof.
  intros w'. subst w'. split.
  - intros t Hin. destruct url as [|c url].
    { unfold pipeline in Hin. simpl in Hin. unfold calls_since in Hin. simpl in Hin.
      rewrite since_refl in Hin. destruct Hin. }
    destruct (pipeline_calls (c :: url) w) as (r1 & w1 & t0 & d & _ & Ht & Hd & _ & Sum & _);
      [discriminate|].
    rewrite Hd in Hin. apply in_rev in Hin. apply in_entries in Hin.
    destruct (Sum t Hin) as [Hne ->]. rewrite Ht. now split.
  - intros r1 w1 Hurl E1 Hr1.
    destruct (pipeline_calls url w Hurl) as (r1' & w1' & t0 & d & E1' & _ & Hd & _ & _ & _ & Fall).
    rewrite E1 in E1'. injection E1' as <- <-.
    rewrite Hd. apply in_rev. rewrite rev_involutive. apply in_entries. apply Fall.
    now destruct Hr1 as [-> | ->].
Qed.

(** C9: when the button is pressed with an empty URL, the only thing the
    trigger block does is to display the warning: no stage is entered and no
    service or file is touched; the script as a whole then renders its fixed
    widgets and that warning, nothing else. *)
Theorem empty_url_only_warns w :
  pipeline sv [] w = (Ok tt, show (St_warning (lit "Please enter a valid YouTube URL")) w)
  /\ (forall key,
        sv_secrets sv (lit "OPENAI_API_KEY") = Some key ->
        let w' := snd (script sv [] true w) in
        fst (script sv [] true w) = Ok tt
        /\ calls_since w w' = []
        /\ files w' = files w /\ dirs w' = dirs w
        /\ ui_since w w'
           = [ St_set_page_config (lit "YouTube Video Summarizer") (lit "wide");
               St_title ([127909%N] ++ lit " AI-Powered YouTube Video Summarizer");
               St_text_input (lit "Enter YouTube Video URL:") (lit "https://youtube.com/...");
               St_button (lit "Generate Summary");
               St_warning (lit "Please enter a valid YouTube URL");
               St_markdown (lit "---");
               St_markdown (lit "Built with " ++ [10084%N; 65039%N]
                            ++ lit " using OpenAI, Streamlit, and Python") ]).
Proof.
  split; [reflexivity|].
  intros key Hkey w'. subst w'.
  unfold script, st_secrets. rewrite Hkey. unfold pipeline. py_unfold.
  cbn [truthy_str fst snd]. unfold calls_since, ui_since.
  cbn [history ui files dirs show set_api_key].
  repeat split.
  - apply since_refl.
  - match goal with
    | |- since ?h (?a :: ?b :: ?c :: ?d :: ?e :: ?f :: ?g :: ?h) = _ =>
        change (a :: b :: c :: d :: e :: f :: g :: h) with ([a; b; c; d; e; f; g] ++ h)
    end.
    now rewrite since_app.
Qed.

(** C10, amended: the two download buttons ([summary.txt] with the summary
    and [transcript.txt] with the transcript) are offered if and only if the
    transcript and the summary are both present and not empty; a transcript
    that is present and not empty is displayed whether or not the
    summarization succeeds. *)
Theorem downloads_iff_transcript_and_summary_nonempty transcript w :
  let w' := snd (present_results sv transcript w) in
  let summary_of t :=
    fst (generate_summary sv t default_max_tokens (snd (present_transcript t w))) in
  (forall t s,
      transcript = Some t -> t <> [] ->
      summary_of t = Ok (Some s) -> s <> [] ->
      downloads (ui_since w w') = [(lit "summary.txt", s); (lit "transcript.txt", t)])
  /\ (downloads (ui_since w w') <> [] ->
      exists t s, transcript = Some t /\ t <> []
                  /\ summary_of t = Ok (Some s) /\ s <> [])
  /\ (forall t,
        transcript = Some t -> t <> [] ->
        In (St_expander_write (lit "View Transcript") t) (ui_since w w')).
Proof.
  intros w' summary_of.
  destruct transcript as [[|c t]|].
  1,3: (split; [intros t s H; try discriminate; injection H as <-; congruence|];
        split; [|intros t H; try discriminate; injection H as <-; congruence];
        subst w'; unfold present_results; py_unfold; unfold ui_since;
        cbn [snd ui show];
        match goal with
        | |- context [since ?h (?a :: ?h)] => change (a :: h) with ([a] ++ h)
        end; rewrite since_app; simpl; congruence).
  set (tr := c :: t) in *.
  assert (Hshown : snd (present_transcript tr w)
                   = show (St_subheader ([128204%N] ++ lit " AI-Generated Summary"))
                       (show (St_expander_write (lit "View Transcript") tr)
                          (show (St_subheader ([128221%N] ++ lit " Full Transcript")) w)))
    by reflexivity.
  destruct (generate_summary_ui tr default_max_tokens (snd (present_transcript tr w)))
    as (r & w1 & E & Hui).
  assert (Hsum : summary_of tr = Ok r) by (unfold summary_of; now rewrite E).
  assert (Hrun : present_results sv (Some tr) w
                 = (let (x, w2) := present_summary tr r w1 in (x, w2))).
  { unfold present_results. subst tr. unfold bind at 1.
    replace (present_transcript (c :: t) w)
      with (Ok tt, snd (present_transcript (c :: t) w)) by reflexivity.
    unfold bind. rewrite E. now destruct (present_summary (c :: t) r w1). }
  assert (Hmid : exists mid, ui w1 = mid ++ ui (snd (present_transcript tr w))
                             /\ downloads (rev mid) = []
                             /\ (mid = [] \/ r = None)).
  { destruct Hui as [Hui|(Hr & msg & Hui)].
    - exists []. now rewrite Hui; auto.
    - exists [St_error msg]. rewrite Hui. auto. }
  destruct Hmid as (mid & Hmid & Hdl & Hcase).
  rewrite Hshown in Hmid. cbn [ui show] in Hmid.
  assert (Hui' : exists last,
             ui w' = last ++ mid
                     ++ [ St_subheader ([128204%N] ++ lit " AI-Generated Summary");
                          St_expander_write (lit "View Transcript") tr;
                          St_subheader ([128221%N] ++ lit " Full Transcript") ] ++ ui w
             /\ downloads (rev last)
                = match r with
                  | Some ((_ :: _) as s) => [(lit "summary.txt", s); (lit "transcript.txt", tr)]
                  | _ => []
                  end).
  { subst w'. rewrite Hrun. unfold present_summary. py_unfold.
    destruct r as [[|c' s']|]; cbn [snd ui show]; rewrite Hmid.
    - exists [St_error (lit "Failed to generate summary")]. now split.
    - eexists [_; _; _; _]. split; reflexivity.
    - exists [St_error (lit "Failed to generate summary")]. now split. }
  destruct Hui' as (last & Hui' & Hlast).
  assert (Hsince : ui_since w w'
                   = [ St_subheader ([128221%N] ++ lit " Full Transcript");
                       St_expander_write (lit "View Transcript") tr;
                       St_subheader ([128204%N] ++ lit " AI-Generated Summary") ]
                     ++ rev mid ++ rev last).
  { unfold ui_since. rewrite Hui', !app_assoc, since_app, !rev_app_distr.
    now rewrite <- !app_assoc. }
  assert (Hdown : downloads (ui_since w w')
                  = match r with
                    | Some ((_ :: _) as s) => [(lit "summary.txt", s); (lit "transcript.txt", tr)]
                    | _ => []
                    end).
  { rewrite Hsince. unfold downloads in *. rewrite !flat_map_app, Hdl, Hlast. reflexivity. }
  split; [|split].
  - intros t0 s H Hne Hs Hsne. injection H as <-. rewrite Hdown.
    rewrite Hsum in Hs. injection Hs as ->. now destruct s.
  - intros Hne. rewrite Hdown in Hne. exists tr.
    destruct r as [[|c' s']|]; try congruence.
    exists (c' :: s'). now repeat split.
  - intros t0 H _. injection H as <-. rewrite Hsince. simpl. auto.
Qed.

End Properties.

(** * The properties on sample runs *)

Lemma sample_url_not_empty : sample_url <> [].
Proof. vm_compute. discriminate. Qed.

Lemma transcript_is_space_joined_witness :
  get_youtube_transcript (captioned hello_segments (lit "- a point")) sample_url empty_world
  = (Ok (Some (space_joined [lit "Hello world"; lit "this is"; lit "a test."])),
     record (Call_get_transcript (lit "dQw4w9WgXcQ") [lit "en"])
       (record (Call_YouTube sample_url)
          (record (Enter Get_youtube_transcript sample_url) empty_world))).
Proof.
  apply (transcript_is_space_joined (captioned hello_segments (lit "- a point"))
           sample_url empty_world sample_video hello_segments); reflexivity.
Defined.

Lemma summarizer_truncates_to_budget_witness :
  let sv := captioned hello_segments (lit "- a point") in
  let request_sending sent :=
    {| model := lit "gpt-3.5-turbo";
       messages :=
         [ {| role := lit "system";
              content := lit "You are a helpful assistant that summarizes video transcripts." |};
           {| role := lit "user";
              content := lit "Create a detailed summary with key points in bullet format:"
                         ++ [10%N; 10%N] ++ sent |} ];
       temperature := 3 # 10;
       max_tokens := 500 |} in
  chat_requests (calls_since empty_world
                   (snd (generate_summary sv (lit "Hello world") default_max_tokens empty_world)))
  = [request_sending (lit "Hello world")]
  /\ chat_requests (calls_since empty_world
                      (snd (generate_summary sv long_text default_max_tokens empty_world)))
     = [request_sending (firstn (Z.to_nat 10500) long_text)].
Proof.
  intros sv request_sending. split.
  - apply (proj1 (summarizer_truncates_to_budget sv (lit "Hello world") empty_world
                    (lit "Hello world") eq_refl)).
    vm_compute. discriminate.
  - apply (proj2 (summarizer_truncates_to_budget sv long_text empty_world long_text eq_refl)).
    vm_compute. reflexivity.
Defined.

Lemma summarizer_request_and_answer_witness :
  generate_summary (captioned hello_segments (lit "- a point")) (lit "Hello world")
    default_max_tokens empty_world
  = (Ok (Some (lit "- a point")),
     record (Call_chat (summary_request (lit "Hello world")))
       (record (Call_encode (lit "gpt-3.5-turbo") (lit "Hello world"))
          (record (Enter Generate_summary (lit "Hello world")) empty_world))).
Proof.
  apply (summarizer_request_and_answer (captioned hello_segments (lit "- a point"))
           (lit "Hello world") empty_world (lit "Hello world")
           {| choices := [ {| choice_message :=
                                {| role := lit "assistant"; content := lit "- a point" |} |} ] |}
           {| choice_message := {| role := lit "assistant"; content := lit "- a point" |} |}
           [] eq_refl eq_refl eq_refl).
Defined.

Lemma download_audio_selects_first_mp4_audio_witness :
  let sv := uncaptioned (Ok (lit "hello")) in
  let w' := snd (download_audio sv sample_url empty_world) in
  calls_since empty_world w'
  = [ Enter Download_audio sample_url; Call_YouTube sample_url; Call_streams sample_video;
      Call_mkdir (lit "temp_audio");
      Call_download
        {| itag := 140; includes_audio_track := true; includes_video_track := false;
           subtype := lit "mp4" |}
        (lit "temp_audio") ]
  /\ dirs w' = {[lit "temp_audio"]} ∪ dirs empty_world.
Proof.
  intros sv w'.
  destruct (proj2 (download_audio_selects_first_mp4_audio sv sample_url empty_world
                     sample_video sample_streams eq_refl eq_refl)
              [ {| itag := 18; includes_audio_track := true; includes_video_track := true;
                   subtype := lit "mp4" |};
                {| itag := 251; includes_audio_track := true; includes_video_track := false;
                   subtype := lit "webm" |} ]
              {| itag := 140; includes_audio_track := true; includes_video_track := false;
                 subtype := lit "mp4" |}
              [ {| itag := 139; includes_audio_track := true; includes_video_track := false;
                   subtype := lit "mp4" |} ])
    as (Hcalls & Hdirs & _).
  - reflexivity.
  - repeat constructor; intros (Ha & Hv & Hs); vm_compute in Hv, Hs; discriminate.
  - repeat split; reflexivity.
  - apply not_elem_of_empty.
  - split; [exact Hcalls|exact Hdirs].
Defined.

Lemma stages_catch_every_exception_witness :
  download_audio offline sample_url empty_world
  = (Ok None,
     show (St_error (lit "Download error: " ++ lit "connection refused"))
       (record (Call_YouTube sample_url)
          (record (Enter Download_audio sample_url) empty_world)))
  /\ (exists w',
        get_youtube_transcript (uncaptioned (Ok (lit "hello"))) sample_url empty_world
        = (Ok None, w')
        /\ ui w' = ui empty_world)
  /\ get_youtube_transcript offline sample_url empty_world
     = (Ok None,
        show (St_error (lit "Error: " ++ lit "connection refused"))
          (record (Call_YouTube sample_url)
             (record (Enter Get_youtube_transcript sample_url) empty_world))).
Proof.
  split; [|split].
  - destruct (stages_catch_every_exception offline) as (_ & _ & _ & _ & _ & _ & H & _).
    apply (H sample_url empty_world refused). reflexivity.
  - destruct (stages_catch_every_exception (uncaptioned (Ok (lit "hello"))))
      as (_ & _ & _ & _ & H & _).
    apply (H sample_url empty_world sample_video
             (Exn TranscriptsDisabled (lit "Subtitles are disabled for this video")));
      [reflexivity|reflexivity|now left].
  - destruct (stages_catch_every_exception offline) as (_ & _ & _ & _ & _ & H & _).
    apply (H sample_url empty_world refused); [reflexivity|discriminate|discriminate].
Defined.

Lemma audio_file_removed_after_transcription_witness :
  let p := lit "temp_audio/audio.mp4" in
  let heard := uncaptioned (Ok (lit "hello")) in
  let unheard := uncaptioned (Raise refused) in
  (In (Call_remove p) (calls_since empty_world (snd (pipeline heard sample_url empty_world)))
   /\ p ∉ files (snd (pipeline heard sample_url empty_world)))
  /\ (In (Call_remove p) (calls_since empty_world (snd (pipeline unheard sample_url empty_world)))
      /\ p ∉ files (snd (pipeline unheard sample_url empty_world))).
Proof.
  intros p heard unheard. split.
  - apply (audio_file_removed_after_transcription heard sample_url empty_world p).
    vm_compute. tauto.
  - apply (audio_file_removed_after_transcription unheard sample_url empty_world p).
    vm_compute. tauto.
Defined.

Lemma fallback_iff_no_usable_transcript_witness :
  invocations Download_audio
    (calls_since empty_world
       (snd (pipeline (uncaptioned (Ok (lit "hello"))) sample_url empty_world))) = 1%nat
  /\ invocations Download_audio
       (calls_since empty_world
          (snd (pipeline (captioned hello_segments (lit "- a point")) sample_url empty_world)))
     = 0%nat.
Proof.
  split.
  - apply (proj2 (fallback_iff_no_usable_transcript (uncaptioned (Ok (lit "hello")))
                    sample_url empty_world sample_url_not_empty)
             sample_video (Exn TranscriptsDisabled (lit "Subtitles are disabled for this video")));
      reflexivity.
  - apply (proj1 (fallback_iff_no_usable_transcript (captioned hello_segments (lit "- a point"))
                    sample_url empty_world sample_url_not_empty)
             (Some (lit "Hello world this is a test."))
             (snd (get_youtube_transcript (captioned hello_segments (lit "- a point"))
                     sample_url (spinning empty_world)))).
    vm_compute. reflexivity.
Defined.

(** A video whose only caption segment has an empty text: the Transcript
    Fetcher returns the empty string, which is not the absent result, and the
    Audio Fallback Extractor is invoked all the same. *)
Lemma fallback_runs_on_empty_transcript :
  let sv := captioned [ {| text := [] |} ] (lit "- a point") in
  fst (get_youtube_transcript sv sample_url (spinning empty_world)) = Ok (Some [])
  /\ Some ([] : pystr) <> None
  /\ invocations Download_audio
       (calls_since empty_world (snd (pipeline sv sample_url empty_world))) = 1%nat.
Proof.
  intros sv. split; [|split].
  - vm_compute. reflexivity.
  - discriminate.
  - vm_compute. reflexivity.
Qed.

Lemma no_empty_transcript_summarized_witness :
  let sv := uncaptioned (Ok (lit "hello")) in
  (lit "hello" <> []
   /\ fst (acquire_transcript sv sample_url (spinning empty_world)) = Ok (Some (lit "hello")))
  /\ In (Enter Download_audio sample_url)
       (calls_since empty_world (snd (pipeline sv sample_url empty_world))).
Proof.
  intros sv. split.
  - apply (proj1 (no_empty_transcript_summarized sv sample_url empty_world) (lit "hello")).
    vm_compute. tauto.
  - apply (proj2 (no_empty_transcript_summarized sv sample_url empty_world) None
             (snd (get_youtube_transcript sv sample_url (spinning empty_world)))
             sample_url_not_empty).
    + vm_compute. reflexivity.
    + now left.
Defined.

Lemma empty_url_only_warns_witness :
  let w' := snd (script offline [] true empty_world) in
  fst (script offline [] true empty_world) = Ok tt
  /\ calls_since empty_world w' = []
  /\ errors (ui_since empty_world w') = [].
Proof.
  intros w'.
  destruct (proj2 (empty_url_only_warns offline empty_world) (lit "sk-test") eq_refl)
    as (Hok & Hcalls & _ & _ & Hui).
  split; [exact Hok|]. split; [exact Hcalls|].
  subst w'. rewrite Hui. reflexivity.
Defined.

Lemma downloads_iff_transcript_and_summary_nonempty_witness :
  let sv := captioned hello_segments (lit "- a point") in
  let t := lit "Hello world this is a test." in
  downloads (ui_since empty_world (snd (present_results sv (Some t) empty_world)))
  = [(lit "summary.txt", lit "- a point"); (lit "transcript.txt", t)].
Proof.
  intros sv t.
  apply (proj1 (downloads_iff_transcript_and_summary_nonempty sv (Some t) empty_world)
           t (lit "- a point") eq_refl).
  - vm_compute. discriminate.
  - vm_compute. reflexivity.
  - vm_compute. discriminate.
Defined.

(** A completion whose text is empty: the transcript and the summary are
    both present (the summary is the empty string), the transcript is
    displayed, and no download button is offered. *)
Lemma no_downloads_for_empty_summary :
  let sv := captioned hello_segments [] in
  let t := lit "Hello world this is a test." in
  let w' := snd (present_results sv (Some t) empty_world) in
  fst (generate_summary sv t default_max_tokens (snd (present_transcript t empty_world)))
  = Ok (Some [])
  /\ Some ([] : pystr) <> None
  /\ In (St_expander_write (lit "View Transcript") t) (ui_since empty_world w')
  /\ downloads (ui_since empty_world w') = []
  /\ errors (ui_since empty_world w') = [lit "Failed to generate summary"].
Proof.
  intros sv t w'. split; [|split; [|split; [|split]]].
  - vm_compute. reflexivity.
  - discriminate.
  - vm_compute. tauto.
  - vm_compute. reflexivity.
  - vm_compute. reflexivity.
Qed.

(** * Further properties of the stages and of the driver *)

Lemma lit_space : lit " " = [32%N].
Proof. vm_compute. reflexivity. Qed.

Lemma join_cons_cons (sep x y : pystr) (rest : list pystr) :
  join sep (x :: y :: rest) = x ++ sep ++ join sep (y :: rest).
Proof. reflexivity. Qed.

Lemma fit_budget_prefix (text : pystr) (n k : Z) :
  exists rest, text = fit_budget text n k ++ rest.
Proof.
  unfold fit_budget, slice_to.
  destruct (n >? k); [|exists []; now rewrite app_nil_r].
  destruct (0 <=? char_limit k); eexists; symmetry; apply firstn_skipn.
Qed.

Lemma fit_budget_bound (text : pystr) (n k : Z) :
  0 <= k -> k < n -> 2 * Z.of_nat (length (fit_budget text n k)) <= 7 * k.
Proof.
  intros Hk Hn. unfold fit_budget, slice_to, char_limit.
  destruct (Z.gtb_spec n k); [|lia].
  rewrite Z.quot_div_nonneg by lia.
  assert (Hdiv : 2 * (7 * k / 2) <= 7 * k) by (apply Z.mul_div_le; lia).
  assert (Hpos : 0 <= 7 * k / 2) by (apply Z.div_pos; lia).
  destruct (Z.leb_spec 0 (7 * k / 2)); [|lia].
  rewrite length_firstn. lia.
Qed.

Lemma kinds_rev_app (d2 d1 : list call) :
  kinds (rev (d2 ++ d1)) = kinds (rev d1) ++ kinds (rev d2).
Proof. unfold kinds. now rewrite rev_app_distr, map_app. Qed.

Lemma entries_rev_app (d2 d1 : list call) :
  entries (rev (d2 ++ d1)) = entries (rev d1) ++ entries (rev d2).
Proof. now rewrite rev_app_distr, entries_app. Qed.

Lemma footprint_refl (w : world) : footprint w w [].
Proof.
  split; [reflexivity|]. split; [now exists []|]. split; [constructor|reflexivity].
Qed.

Lemma footprint_trans (w0 w1 w2 : world) (d1 d2 : list call) :
  footprint w0 w1 d1 -> footprint w1 w2 d2 -> footprint w0 w2 (d2 ++ d1).
Proof.
  intros (H1 & (u1 & U1) & F1 & D1) (H2 & (u2 & U2) & F2 & D2).
  split; [now apply (extends_trans _ _ _ _ _ H1 H2)|].
  split; [exists (u2 ++ u1); now apply (extends_trans _ _ _ _ _ U1 U2)|].
  split; [now apply Forall_app|].
  now transitivity (dirs w1).
Qed.

Lemma footprint_show (x : widget) (w : world) : footprint w (show x w) [].
Proof.
  split; [reflexivity|]. split; [now exists [x]|]. split; [constructor|reflexivity].
Qed.

Lemma footprint_then_show (x : widget) (w w' : world) (d : list call) :
  footprint w w' d -> footprint w (show x w') d.
Proof.
  intros F. apply (footprint_trans w w' (show x w') d [] F). apply footprint_show.
Qed.

Lemma footprint_after_show (x : widget) (w w' : world) (d : list call) :
  footprint (show x w) w' d -> footprint w w' d.
Proof.
  intros F. rewrite <- (app_nil_r d).
  apply (footprint_trans w (show x w) w' [] d); [apply footprint_show|exact F].
Qed.

Lemma occurrences_kinds (k : kind) (cs : list call) :
  occurrences k cs = count_kind k (kinds cs).
Proof.
  unfold occurrences, count_kind, kinds.
  induction cs as [|c cs IH]; [reflexivity|].
  cbn [map List.filter]. destruct (kind_eqb (kind_of c) k); cbn [length]; now rewrite IH.
Qed.

(** Closing a brute-force case of a stage: the run, then its footprint. *)
Ltac footprint_tac :=
  split; [extends_tac|];
  split; [eexists; extends_tac|];
  split; [repeat constructor|];
  first [reflexivity | apply union_subseteq_r].

Lemma pipeline_shapes_no_retry (ks : list kind) (k : kind) :
  In ks pipeline_shapes ->
  (count_kind k ks <= (if kind_eqb k K_YouTube then 2 else 1))%nat.
Proof.
  intros Hin.
  assert (Hall : forallb (fun ks' =>
                   forallb (fun k' => Nat.leb (count_kind k' ks')
                                        (if kind_eqb k' K_YouTube then 2 else 1))
                     [ K_enter Get_youtube_transcript; K_enter Download_audio;
                       K_enter Transcribe_audio; K_enter Generate_summary;
                       K_YouTube; K_get_transcript; K_streams; K_mkdir; K_download;
                       K_open; K_transcribe; K_remove; K_encode; K_chat ])
                   pipeline_shapes = true) by (vm_compute; reflexivity).
  rewrite forallb_forall in Hall. specialize (Hall ks Hin).
  rewrite forallb_forall in Hall. apply Nat.leb_le. apply Hall.
  destruct k as [[]| | | | | | | | | |]; simpl; tauto.
Qed.

Section Coverage.

Variable sv : services.

(** The stage run of C3, with the join as the code writes it. *)
Lemma get_youtube_transcript_ok url w yt segs :
  let w1 := record (Enter Get_youtube_transcript url) w in
  let w2 := record (Call_YouTube url) w1 in
  sv_YouTube sv w1 url = Ok yt ->
  sv_get_transcript sv w2 (video_id yt) [lit "en"] = Ok segs ->
  get_youtube_transcript sv url w
  = (Ok (Some (join (lit " ") (map text segs))),
     record (Call_get_transcript (video_id yt) [lit "en"]) w2).
Proof.
  intros w1 w2 Hyt Hsegs.
  unfold get_youtube_transcript, get_youtube_transcript_try, pytube_YouTube, get_transcript.
  py_unfold. fold w1. rewrite Hyt. fold w2. now rewrite Hsegs.
Qed.

(** X1: the Transcript Fetcher's result for a captioned video is the empty string,
    hence handed to the audio fallback, exactly when the video has no segment
    or one segment whose text is empty; two empty segments already give a
    string of one space, which goes to the Summarizer. *)
Theorem fetched_transcript_falsy_iff url w yt segs :
  let w1 := record (Enter Get_youtube_transcript url) w in
  let w2 := record (Call_YouTube url) w1 in
  sv_YouTube sv w1 url = Ok yt ->
  sv_get_transcript sv w2 (video_id yt) [lit "en"] = Ok segs ->
  exists t,
    fst (get_youtube_transcript sv url w) = Ok (Some t)
    /\ (truthy (Some t) = false <-> map text segs = [] \/ map text segs = [[]]).
Proof.
  intros w1 w2 Hyt Hsegs.
  rewrite (get_youtube_transcript_ok url w yt segs Hyt Hsegs). cbn [fst].
  eexists. split; [reflexivity|].
  rewrite lit_space. cbn [truthy].
  destruct (map text segs) as [|x [|y rest]].
  - simpl. tauto.
  - simpl. destruct x; simpl; split; intros H; try discriminate; auto.
    destruct H as [H|H]; discriminate.
  - rewrite join_cons_cons. split.
    + destruct x; simpl; discriminate.
    + intros [H|H]; discriminate.
Qed.

(** X2: [transcribe_audio] on a path that does not exist: the speech-to-text
    service is never asked; the stage returns absent and displays one error,
    the one [open] raised. *)
Theorem transcribe_missing_file path w :
  path ∉ files w -> path ∉ dirs w ->
  let w' := snd (transcribe_audio sv path w) in
  fst (transcribe_audio sv path w) = Ok None
  /\ calls_since w w' = [Enter Transcribe_audio path; Call_open path]
  /\ exists msg, ui_since w w' = [St_error (lit "Transcription error: " ++ msg)].
Proof.
  intros Hfile Hdir w'. subst w'.
  unfold transcribe_audio, transcribe_audio_try, open_rb, report. py_unfold.
  cbn [files dirs record].
  destruct (decide (path ∈ files w)); [contradiction|].
  destruct (decide (path ∈ dirs w)); [contradiction|].
  cbn [fst snd]. unfold calls_since, ui_since. cbn [history ui show record].
  split; [reflexivity|]. split.
  - match goal with
    | |- context [since ?h (?a :: ?b :: ?h)] => change (a :: b :: h) with ([a; b] ++ h)
    end.
    now rewrite since_app.
  - eexists.
    match goal with
    | |- context [since ?h (?a :: ?h)] => change (a :: h) with ([a] ++ h)
    end.
    rewrite since_app. reflexivity.
Qed.

(** X3: [generate_summary] when the tokenizer raises: no request reaches the
    chat-completion service; the stage returns absent and displays the
    error. *)
Theorem summarizer_tokenizer_failure text k w e :
  let w1 := record (Enter Generate_summary text) w in
  sv_encode sv w1 (lit "gpt-3.5-turbo") text = Raise e ->
  generate_summary sv text k w
  = (Ok None,
     show (St_error (lit "Summarization error: " ++ exn_msg e))
       (record (Call_encode (lit "gpt-3.5-turbo") text) w1))
  /\ chat_requests (calls_since w (snd (generate_summary sv text k w))) = [].
Proof.
  intros w1 Henc.
  assert (E : generate_summary sv text k w
              = (Ok None,
                 show (St_error (lit "Summarization error: " ++ exn_msg e))
                   (record (Call_encode (lit "gpt-3.5-turbo") text) w1))).
  { unfold generate_summary, generate_summary_try, count_tokens, report. py_unfold.
    fold w1. now rewrite Henc. }
  split; [exact E|]. rewrite E. unfold calls_since. subst w1. cbn [snd history show record].
  match goal with
  | |- context [since ?h (?a :: ?b :: ?h)] => change (a :: b :: h) with ([a; b] ++ h)
  end.
  now rewrite since_app.
Qed.

(** X4: [generate_summary] when the completion service answers with an empty
    list of choices: indexing the first choice raises [IndexError], which the
    stage reports; the result is absent. *)
Theorem summarizer_no_choice text k w tokens :
  let w1 := record (Enter Generate_summary text) w in
  let w2 := record (Call_encode (lit "gpt-3.5-turbo") text) w1 in
  let req := summary_request (fit_budget text (Z.of_nat (length tokens)) k) in
  sv_encode sv w1 (lit "gpt-3.5-turbo") text = Ok tokens ->
  sv_chat sv w2 req = Ok {| choices := [] |} ->
  generate_summary sv text k w
  = (Ok None,
     show (St_error (lit "Summarization error: " ++ lit "list index out of range"))
       (record (Call_chat req) w2)).
Proof.
  intros w1 w2 req Henc Hchat.
  unfold generate_summary, generate_summary_try, count_tokens,
    openai_ChatCompletion_create, report.
  py_unfold. fold w1. rewrite Henc. fold w2. fold req. now rewrite Hchat.
Qed.

(** X5: for every [max_tokens] of absolute value at most 2^50 (where
    [int(max_tokens * 3.5)] is exact), when the tokenizer succeeds
    [generate_summary] sends exactly one chat request, and the text that
    follows the fixed instruction in its user message is a prefix of the input:
    the whole input when the token count is at most [max_tokens], and at most
    3.5 x [max_tokens] characters when [max_tokens] is not negative and the
    token count exceeds it. *)
Theorem summarizer_sends_prefix text k w tokens :
  let w1 := record (Enter Generate_summary text) w in
  let w' := snd (generate_summary sv text k w) in
  let request_sending sent :=
    {| model := lit "gpt-3.5-turbo";
       messages :=
         [ {| role := lit "system";
              content := lit "You are a helpful assistant that summarizes video transcripts." |};
           {| role := lit "user";
              content := lit "Create a detailed summary with key points in bullet format:"
                         ++ [10%N; 10%N] ++ sent |} ];
       temperature := 3 # 10;
       max_tokens := 500 |} in
  Z.abs k <= 2 ^ 50 ->
  sv_encode sv w1 (lit "gpt-3.5-turbo") text = Ok tokens ->
  exists sent rest,
    chat_requests (calls_since w w') = [request_sending sent]
    /\ text = sent ++ rest
    /\ (Z.of_nat (length tokens) <= k -> sent = text)
    /\ (0 <= k -> k < Z.of_nat (length tokens) -> 2 * Z.of_nat (length sent) <= 7 * k).
Proof.
  intros w1 w' request_sending _ Henc.
  set (n := Z.of_nat (length tokens)).
  destruct (fit_budget_prefix text n k) as (rest & Hrest).
  exists (fit_budget text n k), rest.
  split; [|split; [exact Hrest|split]].
  - replace (request_sending (fit_budget text n k))
      with (summary_request (fit_budget text n k))
      by (unfold summary_request, user_prompt_prefix, system_prompt;
          subst request_sending; cbv beta; now rewrite <- app_assoc).
    subst w'.
    unfold generate_summary, generate_summary_try, count_tokens,
      openai_ChatCompletion_create, report.
    py_unfold. fold w1. rewrite Henc. fold n.
    unfold calls_since.
    set (req := summary_request (fit_budget text n k)).
    set (w2 := record (Call_encode _ _) w1).
    destruct (sv_chat sv w2 req) as [[[|c cs]]|e]; cbn [snd history record show choices];
      subst w2 w1; cbn [history record];
      match goal with
      | |- context [since ?h (?a :: ?b :: ?c :: ?h)] =>
          change (a :: b :: c :: h) with ([a; b; c] ++ h)
      end; rewrite since_app; reflexivity.
  - intros Hle. unfold fit_budget. destruct (Z.gtb_spec n k); [lia|reflexivity].
  - intros Hk Hlt. now apply fit_budget_bound.
Qed.

(** X6: [download_audio] when a regular file sits at the scratch path: creating
    the directory raises, nothing is downloaded, the file system is left as
    it was, and the stage returns absent after displaying one error. *)
Theorem download_scratch_is_a_file url w yt ss s :
  let w1 := record (Enter Download_audio url) w in
  let w2 := record (Call_YouTube url) w1 in
  let w' := snd (download_audio sv url w) in
  sv_YouTube sv w1 url = Ok yt ->
  sv_streams sv w2 yt = Ok ss ->
  first (filter_only_audio (lit "mp4") ss) = Some s ->
  lit "temp_audio" ∈ files w -> lit "temp_audio" ∉ dirs w ->
  fst (download_audio sv url w) = Ok None
  /\ calls_since w w'
     = [ Enter Download_audio url; Call_YouTube url; Call_streams yt;
         Call_mkdir (lit "temp_audio") ]
  /\ files w' = files w /\ dirs w' = dirs w
  /\ exists msg, ui_since w w' = [St_error (lit "Download error: " ++ msg)].
Proof.
  intros w1 w2 w' Hyt Hss Hsel Hfile Hdir. subst w'.
  unfold download_audio, download_audio_try, pytube_YouTube, streams, mkdir_exist_ok, report.
  py_unfold. fold w1. rewrite Hyt. fold w2. rewrite Hss. rewrite Hsel.
  set (w3 := record (Call_streams yt) w2).
  change (files (record (Call_mkdir (lit "temp_audio")) w3)) with (files w).
  change (dirs (record (Call_mkdir (lit "temp_audio")) w3)) with (dirs w).
  destruct (decide (lit "temp_audio" ∈ dirs w)); [contradiction|].
  destruct (decide (lit "temp_audio" ∈ files w)); [|contradiction].
  cbn [fst snd]. unfold calls_since, ui_since. subst w3 w2 w1.
  cbn [history ui files dirs show record].
  split; [reflexivity|]. split; [|split; [reflexivity|split; [reflexivity|]]].
  - match goal with
    | |- context [since ?h (?a :: ?b :: ?c :: ?d :: ?h)] =>
        change (a :: b :: c :: d :: h) with ([a; b; c; d] ++ h)
    end.
    now rewrite since_app.
  - eexists.
    match goal with
    | |- context [since ?h (?a :: ?h)] => change (a :: h) with ([a] ++ h)
    end.
    rewrite since_app. reflexivity.
Qed.

(** *** The footprint of each stage *)

Lemma get_youtube_transcript_footprint url w :
  exists r w' d,
    get_youtube_transcript sv url w = (Ok r, w')
    /\ footprint w w' d
    /\ In (kinds (rev d)) get_youtube_transcript_shapes
    /\ entries (rev d) = [(Get_youtube_transcript, url)]
    /\ files w' = files w.
Proof.
  unfold get_youtube_transcript, get_youtube_transcript_try, get_youtube_transcript_except,
    pytube_YouTube, get_transcript.
  py_unfold. simpl.
  repeat py_case; simpl;
    (do 3 eexists; split; [reflexivity|]; simpl; split; [footprint_tac|]);
    (split; [simpl; tauto|split; reflexivity]).
Qed.

Lemma transcribe_audio_footprint path w :
  exists r w' d,
    transcribe_audio sv path w = (Ok r, w')
    /\ footprint w w' d
    /\ In (kinds (rev d)) transcribe_audio_shapes
    /\ entries (rev d) = [(Transcribe_audio, path)]
    /\ files w' = files w.
Proof.
  unfold transcribe_audio, transcribe_audio_try, report, open_rb, openai_Audio_transcribe.
  py_unfold. simpl.
  repeat py_case; simpl;
    (do 3 eexists; split; [reflexivity|]; simpl; split; [footprint_tac|]);
    (split; [simpl; tauto|split; reflexivity]).
Qed.

Lemma generate_summary_footprint text w :
  exists r w' d,
    generate_summary sv text default_max_tokens w = (Ok r, w')
    /\ footprint w w' d
    /\ In (kinds (rev d)) generate_summary_shapes
    /\ entries (rev d) = [(Generate_summary, text)]
    /\ files w' = files w.
Proof.
  unfold generate_summary, generate_summary_try, report, count_tokens,
    openai_ChatCompletion_create.
  py_unfold. simpl.
  repeat py_case; simpl;
    (do 3 eexists; split; [reflexivity|]; simpl; split; [footprint_tac|]);
    (split; [simpl; tauto|split; reflexivity]).
Qed.

Lemma download_audio_footprint url w :
  exists r w' d,
    download_audio sv url w = (Ok r, w')
    /\ footprint w w' d
    /\ In (kinds (rev d)) download_audio_shapes
    /\ entries (rev d) = [(Download_audio, url)]
    /\ (match r with
        | Some p => files w' = {[p]} ∪ files w
                    /\ exists w0 s0 o, sv_download sv w0 s0 o = Ok p
        | None => files w' = files w
        end).
Proof.
  unfold download_audio, download_audio_try, report, pytube_YouTube, streams,
    mkdir_exist_ok, download.
  py_unfold. simpl.
  repeat py_case; simpl;
    (do 3 eexists; split; [reflexivity|]; simpl; split; [footprint_tac|]);
    (split; [simpl; tauto|split; [reflexivity|]]);
    try reflexivity; (split; [reflexivity|eauto]).
Qed.

Lemma os_remove_footprint p w :
  p ∈ files w ->
  exists w',
    os_remove p w = (Ok tt, w')
    /\ footprint w w' [Call_remove p]
    /\ files w' = files w ∖ {[p]}.
Proof.
  intros Hin. unfold os_remove. py_unfold. cbn [files dirs record].
  destruct (decide (p ∈ files w)) as [_|Hout]; [|contradiction].
  eexists. split; [reflexivity|]. split; [|reflexivity].
  split; [reflexivity|]. split; [now exists []|]. split; [repeat constructor|reflexivity].
Qed.

(** *** The footprint of the driver *)

Lemma acquire_transcript_shape (g d t : list kind) :
  In g get_youtube_transcript_shapes ->
  (d = [] /\ t = []
   \/ In d download_audio_shapes
      /\ (t = [] \/ exists t0, In t0 transcribe_audio_shapes /\ t = t0 ++ [K_remove])) ->
  In (g ++ d ++ t) acquire_transcript_shapes.
Proof.
  intros Hg Hrest. unfold acquire_transcript_shapes.
  apply in_flat_map. exists g. split; [exact Hg|].
  destruct Hrest as [[-> ->]|(Hd & Ht)].
  - left. now rewrite app_nil_r.
  - right. apply in_flat_map. exists d. split; [exact Hd|].
    destruct Ht as [->|(t0 & Ht0 & ->)].
    + left. now rewrite app_nil_r.
    + right. apply in_map_iff. exists t0. now split.
Qed.

Lemma acquire_transcript_footprint url w :
  exists r w' d,
    acquire_transcript sv url w = (Ok r, w')
    /\ footprint w w' d
    /\ In (kinds (rev d)) acquire_transcript_shapes
    /\ (entries (rev d) = [(Get_youtube_transcript, url)] /\ truthy r = true
        \/ entries (rev d) = [(Get_youtube_transcript, url); (Download_audio, url)]
           /\ truthy r = false
        \/ exists p, p <> []
                     /\ entries (rev d) = [ (Get_youtube_transcript, url);
                                            (Download_audio, url); (Transcribe_audio, p) ])
    /\ (forall f, f ∈ files w' ->
                  f ∈ files w \/ (f = [] /\ exists w0 s0 o, sv_download sv w0 s0 o = Ok [])).
Proof.
  destruct (get_youtube_transcript_footprint url w) as (r1 & w1 & d1 & E1 & F1 & K1 & En1 & Fi1).
  unfold acquire_transcript, bind. rewrite E1.
  destruct (truthy r1) eqn:T1; cbn [negb].
  { exists r1, w1, d1. split; [reflexivity|]. split; [exact F1|]. split.
    - rewrite <- (app_nil_r (kinds (rev d1))).
      apply (acquire_transcript_shape _ [] []); [exact K1|now left].
    - split; [left; now split|]. intros f Hf. left. now rewrite <- Fi1. }
  destruct (download_audio_footprint url w1) as (r2 & w2 & d2 & E2 & F2 & K2 & En2 & Fi2).
  rewrite E2.
  assert (Hstop : forall r p0, r = r1 -> r2 = None \/ r2 = Some p0 /\ p0 = [] ->
    exists r' w' d, (Ok r, w2) = (Ok r', w')
      /\ footprint w w' d
      /\ In (kinds (rev d)) acquire_transcript_shapes
      /\ (entries (rev d) = [(Get_youtube_transcript, url)] /\ truthy r' = true
          \/ entries (rev d) = [(Get_youtube_transcript, url); (Download_audio, url)]
             /\ truthy r' = false
          \/ exists p, p <> []
                       /\ entries (rev d) = [ (Get_youtube_transcript, url);
                                              (Download_audio, url); (Transcribe_audio, p) ])
      /\ (forall f, f ∈ files w2 ->
                    f ∈ files w \/ (f = [] /\ exists w0 s0 o, sv_download sv w0 s0 o = Ok []))).
  { intros r p0 -> Hr2. exists r1, w2, (d2 ++ d1). split; [reflexivity|].
    split; [now apply (footprint_trans w w1 w2)|]. split.
    - rewrite kinds_rev_app. rewrite <- (app_nil_r (kinds (rev d2))).
      apply (acquire_transcript_shape _ _ []); [exact K1|right; split; [exact K2|now left]].
    - split; [right; left; split; [now rewrite entries_rev_app, En1, En2|exact T1]|].
      intros f Hf. destruct Hr2 as [->|[-> ->]].
      + left. now rewrite <- Fi1, <- Fi2.
      + destruct Fi2 as (Fi2 & Hdl). rewrite Fi2 in Hf.
        apply elem_of_union in Hf. destruct Hf as [Hf|Hf].
        * right. apply elem_of_singleton in Hf. now split.
        * left. now rewrite <- Fi1. }
  destruct r2 as [[|c p]|]; cbn [truthy_str]; unfold ret.
  { destruct (Hstop r1 [] eq_refl) as (r' & w' & d & E & Rest); [right; now split|].
    injection E as <- <-. exists r1, w2, d. now split. }
  2: { destruct (Hstop r1 [] eq_refl) as (r' & w' & d & E & Rest); [now left|].
       injection E as <- <-. exists r1, w2, d. now split. }
  clear Hstop. destruct Fi2 as (Fi2 & _).
  destruct (transcribe_audio_footprint (c :: p) w2)
    as (r3 & w3 & d3 & E3 & F3 & K3 & En3 & Fi3).
  rewrite E3.
  assert (Hin : (c :: p) ∈ files w3).
  { rewrite Fi3, Fi2. apply elem_of_union_l. now apply elem_of_singleton. }
  destruct (os_remove_footprint (c :: p) w3 Hin) as (w4 & E4 & F4 & Fi4).
  rewrite E4.
  exists r3, w4, ([Call_remove (c :: p)] ++ d3 ++ d2 ++ d1). split; [reflexivity|].
  split.
  { apply (footprint_trans w w3 w4); [|exact F4].
    apply (footprint_trans w w2 w3); [|exact F3].
    now apply (footprint_trans w w1 w2). }
  split.
  { rewrite !kinds_rev_app. cbn [rev app kinds map kind_of].
    rewrite <- !app_assoc.
    apply acquire_transcript_shape; [exact K1|].
    right. split; [exact K2|]. right. exists (kinds (rev d3)). now split. }
  split.
  { right; right. exists (c :: p). split; [discriminate|].
    rewrite !entries_rev_app, En1, En2, En3. reflexivity. }
  intros f Hf. left. rewrite Fi4 in Hf. apply elem_of_difference in Hf.
  destruct Hf as [Hf Hne]. rewrite Fi3, Fi2 in Hf.
  apply elem_of_union in Hf. destruct Hf as [Hf|Hf]; [contradiction|].
  now rewrite <- Fi1.
Qed.

Lemma present_results_footprint transcript w :
  exists w' d,
    present_results sv transcript w = (Ok tt, w')
    /\ footprint w w' d
    /\ files w' = files w
    /\ (d = [] /\ truthy transcript = false
        \/ exists t, transcript = Some t /\ t <> []
                     /\ In (kinds (rev d)) generate_summary_shapes
                     /\ entries (rev d) = [(Generate_summary, t)]).
Proof.
  unfold present_results.
  destruct transcript as [[|c t]|].
  1,3: (do 2 eexists; split; [reflexivity|]; split; [apply footprint_show|];
        split; [reflexivity|left; now split]).
  unfold bind at 1. unfold present_transcript. py_unfold. cbv beta iota.
  set (w0 := show _ (show _ (show _ w))).
  destruct (generate_summary_footprint (c :: t) w0) as (r & w1 & d & E & F & K & En & Fi).
  assert (F0 : footprint w w1 d).
  { subst w0. now repeat apply footprint_after_show in F. }
  rewrite E. unfold present_summary. py_unfold.
  destruct r as [[|c' s']|];
    (do 2 eexists; split; [reflexivity|]; split;
     [repeat apply footprint_then_show; exact F0|]);
    (split; [exact Fi|right; exists (c :: t); repeat split; [discriminate|exact K|exact En]]).
Qed.

Lemma pipeline_shape (a s0 : list kind) :
  In a acquire_transcript_shapes ->
  s0 = [] \/ In s0 generate_summary_shapes ->
  In (a ++ s0) pipeline_shapes.
Proof.
  intros Ha Hs. unfold pipeline_shapes. apply in_flat_map. exists a. split; [exact Ha|].
  destruct Hs as [->|Hs]; [left; now rewrite app_nil_r|].
  right. apply in_map_iff. now exists s0.
Qed.

Lemma pipeline_footprint url w :
  url <> [] ->
  exists w' d,
    pipeline sv url w = (Ok tt, w')
    /\ footprint w w' d
    /\ In (kinds (rev d)) pipeline_shapes
    /\ ((exists t, t <> []
                   /\ entries (rev d) = [(Get_youtube_transcript, url); (Generate_summary, t)])
        \/ entries (rev d) = [(Get_youtube_transcript, url); (Download_audio, url)]
        \/ (exists p, p <> []
                      /\ entries (rev d) = [ (Get_youtube_transcript, url);
                                             (Download_audio, url); (Transcribe_audio, p) ])
        \/ (exists p t, p <> [] /\ t <> []
                        /\ entries (rev d) = [ (Get_youtube_transcript, url);
                                               (Download_audio, url); (Transcribe_audio, p);
                                               (Generate_summary, t) ]))
    /\ (forall f, f ∈ files w' ->
                  f ∈ files w \/ (f = [] /\ exists w0 s0 o, sv_download sv w0 s0 o = Ok []))
    /\ (exists mid,
          ui w' = St_spinner_exit :: mid ++ St_spinner_enter (lit "Analyzing video...") :: ui w).
Proof.
  intros Hurl.
  destruct (acquire_transcript_footprint url (spinning w))
    as (t & w2 & d2 & E2 & F2 & K2 & En2 & Fi2).
  destruct (present_results_footprint t w2) as (w3 & d3 & E3 & F3 & Fi3 & Alt3).
  unfold pipeline. destruct url as [|c url]; [congruence|]. cbn [truthy_str].
  unfold bind at 1. unfold st at 1, modify at 1. fold (spinning w).
  unfold try_finally, bind. rewrite E2, E3. unfold st, modify.
  exists (show St_spinner_exit w3), (d3 ++ d2). split; [reflexivity|].
  assert (F : footprint (spinning w) w3 (d3 ++ d2)) by now apply (footprint_trans _ w2).
  split; [apply footprint_then_show; unfold spinning in F; now apply footprint_after_show in F|].
  split.
  { rewrite kinds_rev_app. apply pipeline_shape; [exact K2|].
    destruct Alt3 as [(-> & _)|(t' & _ & _ & K3 & _)]; [now left|now right]. }
  split.
  { rewrite entries_rev_app.
    destruct Alt3 as [(-> & T3)|(t' & -> & Hne & _ & En3)].
    - cbn [rev entries flat_map]. rewrite app_nil_r.
      destruct En2 as [(_ & T2)|[(En2 & _)|(p & Hp & En2)]]; [congruence| |].
      + right; left. exact En2.
      + right; right; left. now exists p.
    - rewrite En3.
      destruct En2 as [(En2 & _)|[(_ & T2)|(p & Hp & En2)]].
      + left. exists t'. split; [exact Hne|]. now rewrite En2.
      + destruct t'; [congruence|discriminate].
      + right; right; right. exists p, t'. split; [exact Hp|]. split; [exact Hne|].
        now rewrite En2. }
  split.
  { intros f Hf. cbn [files show] in Hf. rewrite Fi3 in Hf. exact (Fi2 f Hf). }
  destruct F as (_ & (du & U) & _). exists du. cbn [ui show]. rewrite U. reflexivity.
Qed.

(** *** The pipeline as a whole *)

(** X8: the stages a run on a URL that is not empty enters, in order, are an
    initial part of one of two sequences: the fetcher on the URL then the
    summarizer, or the fetcher, the download on the URL, the transcription
    and the summarizer; the transcription is given a path, and the summarizer
    a transcript, that is not empty.  So whatever stage runs, the fetcher ran
    first, no stage runs twice, the transcription only follows the download,
    and the summarizer never directly follows the download. *)
Theorem pipeline_stage_order url w :
  url <> [] ->
  let es := entries (calls_since w (snd (pipeline sv url w))) in
  exists p t rest,
    p <> [] /\ t <> []
    /\ (es ++ rest = [(Get_youtube_transcript, url); (Generate_summary, t)]
        \/ es ++ rest = [ (Get_youtube_transcript, url); (Download_audio, url);
                          (Transcribe_audio, p); (Generate_summary, t) ]).
Proof.
  intros Hurl es. subst es.
  destruct (pipeline_footprint url w Hurl) as (w' & d & E & (H & _) & _ & Alt & _).
  rewrite E. cbn [snd]. unfold calls_since. rewrite H, since_app.
  destruct Alt as [(t & Ht & ->)|[->|[(p & Hp & ->)|(p & t & Hp & Ht & ->)]]].
  - exists [0%N], t, []. repeat split; try discriminate; auto.
  - exists [0%N], [0%N], [(Transcribe_audio, [0%N]); (Generate_summary, [0%N])].
    repeat split; try discriminate; auto.
  - exists p, [0%N], [(Generate_summary, [0%N])]. repeat split; try discriminate; auto.
  - exists p, t, []. repeat split; auto.
Qed.

(** X9: nothing is retried: in one run every kind of request is made at most
    once, except the construction of [YouTube(url)], made at most twice (once
    by the fetcher, once by the download). *)
Theorem pipeline_no_retry url w k :
  (occurrences k (calls_since w (snd (pipeline sv url w)))
   <= (if kind_eqb k K_YouTube then 2 else 1))%nat.
Proof.
  destruct url as [|c url].
  { unfold pipeline. cbn [truthy_str]. unfold st, modify. cbn [snd].
    unfold calls_since. cbn [history show]. rewrite since_refl.
    destruct (kind_eqb k K_YouTube); cbn; lia. }
  destruct (pipeline_footprint (c :: url) w) as (w' & d & E & (H & _) & K & _);
    [discriminate|].
  rewrite E. cbn [snd]. unfold calls_since. rewrite H, since_app, occurrences_kinds.
  now apply pipeline_shapes_no_retry.
Qed.

(** X10: every request of a run carries the parameters the program fixes: English
    transcripts, the scratch directory [temp_audio], the models [whisper-1]
    and [gpt-3.5-turbo], and a two-message chat request with temperature 0.3
    and at most 500 output tokens. *)
Theorem pipeline_requests_fixed url w :
  Forall fixed_call (calls_since w (snd (pipeline sv url w))).
Proof.
  destruct url as [|c url].
  { unfold pipeline. cbn [truthy_str]. unfold st, modify. cbn [snd].
    unfold calls_since. cbn [history show]. rewrite since_refl. constructor. }
  destruct (pipeline_footprint (c :: url) w) as (w' & d & E & (H & _ & F & _) & _);
    [discriminate|].
  rewrite E. cbn [snd]. unfold calls_since. rewrite H, since_app.
  now apply List.Forall_rev.
Qed.


(** *** Runs that end without a transcript *)

Lemma download_audio_no_stream url w yt ss :
  let w1 := record (Enter Download_audio url) w in
  let w2 := record (Call_YouTube url) w1 in
  sv_YouTube sv w1 url = Ok yt ->
  sv_streams sv w2 yt = Ok ss ->
  Forall (fun s => ~ audio_only_mp4 s) ss ->
  download_audio sv url w = (Ok None, record (Call_streams yt) w2).
Proof.
  intros w1 w2 Hyt Hss Hnone.
  unfold download_audio, download_audio_try, pytube_YouTube, streams.
  py_unfold. fold w1. rewrite Hyt. fold w2. rewrite Hss.
  now rewrite filter_only_audio_none.
Qed.

Lemma get_youtube_transcript_bad_url url w e :
  sv_YouTube sv (record (Enter Get_youtube_transcript url) w) url = Raise e ->
  exn_cls e <> TranscriptsDisabled -> exn_cls e <> NoTranscriptFound ->
  get_youtube_transcript sv url w
  = (Ok None,
     show (St_error (lit "Error: " ++ exn_msg e))
       (record (Call_YouTube url) (record (Enter Get_youtube_transcript url) w))).
Proof.
  intros Hyt H1 H2.
  unfold get_youtube_transcript, get_youtube_transcript_try, get_youtube_transcript_except,
    pytube_YouTube, isinstance.
  py_unfold. rewrite Hyt.
  destruct (exn_cls e); simpl; congruence.
Qed.

Lemma download_audio_bad_url url w e :
  sv_YouTube sv (record (Enter Download_audio url) w) url = Raise e ->
  download_audio sv url w
  = (Ok None,
     show (St_error (lit "Download error: " ++ exn_msg e))
       (record (Call_YouTube url) (record (Enter Download_audio url) w))).
Proof.
  intros Hyt.
  unfold download_audio, download_audio_try, pytube_YouTube, report.
  py_unfold. now rewrite Hyt.
Qed.

(** The run of [pipeline] when the first two stages both return absent. *)
Lemma pipeline_without_transcript url w w1 w2 :
  url <> [] ->
  get_youtube_transcript sv url (spinning w) = (Ok None, w1) ->
  download_audio sv url w1 = (Ok None, w2) ->
  pipeline sv url w
  = (Ok tt,
     show St_spinner_exit
       (show (St_error (lit "Could not process video. Please check URL or try another video."))
          w2)).
Proof.
  intros Hurl E1 E2.
  unfold pipeline. destruct url as [|c url]; [congruence|]. cbn [truthy_str].
  unfold bind at 1. unfold st at 1, modify at 1. fold (spinning w).
  unfold try_finally, bind at 1. unfold acquire_transcript, bind.
  rewrite E1. cbn [truthy negb]. rewrite E2. reflexivity.
Qed.

(** X12: a video without captions and without an audio-only MP4 stream: the two
    stages are tried once each, neither the speech-to-text nor the
    chat-completion service is asked, and the only message displayed is
    "Could not process video". *)
Theorem no_captions_no_audio url w yt e ss :
  url <> [] ->
  (forall w0, sv_YouTube sv w0 url = Ok yt) ->
  (forall w0, sv_get_transcript sv w0 (video_id yt) [lit "en"] = Raise e) ->
  exn_cls e = TranscriptsDisabled \/ exn_cls e = NoTranscriptFound ->
  (forall w0, sv_streams sv w0 yt = Ok ss) ->
  Forall (fun s => ~ audio_only_mp4 s) ss ->
  let w' := snd (pipeline sv url w) in
  ui_since w w'
  = [ St_spinner_enter (lit "Analyzing video...");
      St_error (lit "Could not process video. Please check URL or try another video.");
      St_spinner_exit ]
  /\ calls_since w w'
     = [ Enter Get_youtube_transcript url; Call_YouTube url;
         Call_get_transcript (video_id yt) [lit "en"];
         Enter Download_audio url; Call_YouTube url; Call_streams yt ]
  /\ files w' = files w /\ dirs w' = dirs w.
Proof.
  intros Hurl Hyt Hraise Hcls Hss Hnone w'. subst w'.
  rewrite (pipeline_without_transcript url w _ _ Hurl
             (expected_absence_is_silent sv url (spinning w) yt e (Hyt _) (Hraise _) Hcls)
             (download_audio_no_stream url _ yt ss (Hyt _) (Hss _) Hnone)).
  cbn [snd]. unfold ui_since, calls_since, spinning. cbn [ui history files dirs show record].
  split; [|split; [|split; reflexivity]].
  - match goal with
    | |- since ?h (?a :: ?b :: ?c :: ?h) = _ => change (a :: b :: c :: h) with ([a; b; c] ++ h)
    end.
    now rewrite since_app.
  - match goal with
    | |- since ?h (?a :: ?b :: ?c :: ?d :: ?e0 :: ?f :: ?h) = _ =>
        change (a :: b :: c :: d :: e0 :: f :: h) with ([a; b; c; d; e0; f] ++ h)
    end.
    now rewrite since_app.
Qed.

(** X13: a URL that pytube rejects: [YouTube(url)] raises in the fetcher and
    again in the download, so the user sees three errors in a row (the
    fetcher's, the download's, and "Could not process video") and no other
    service is asked. *)
Theorem rejected_url_shows_three_errors url w e :
  url <> [] ->
  (forall w0, sv_YouTube sv w0 url = Raise e) ->
  exn_cls e <> TranscriptsDisabled -> exn_cls e <> NoTranscriptFound ->
  let w' := snd (pipeline sv url w) in
  ui_since w w'
  = [ St_spinner_enter (lit "Analyzing video...");
      St_error (lit "Error: " ++ exn_msg e);
      St_error (lit "Download error: " ++ exn_msg e);
      St_error (lit "Could not process video. Please check URL or try another video.");
      St_spinner_exit ]
  /\ calls_since w w'
     = [ Enter Get_youtube_transcript url; Call_YouTube url;
         Enter Download_audio url; Call_YouTube url ].
Proof.
  intros Hurl Hyt H1 H2 w'. subst w'.
  rewrite (pipeline_without_transcript url w _ _ Hurl
             (get_youtube_transcript_bad_url url (spinning w) e (Hyt _) H1 H2)
             (download_audio_bad_url url _ e (Hyt _))).
  cbn [snd]. unfold ui_since, calls_since, spinning. cbn [ui history show record].
  split.
  - match goal with
    | |- since ?h (?a :: ?b :: ?c :: ?d :: ?e0 :: ?h) = _ =>
        change (a :: b :: c :: d :: e0 :: h) with ([a; b; c; d; e0] ++ h)
    end.
    now rewrite since_app.
  - match goal with
    | |- since ?h (?a :: ?b :: ?c :: ?d :: ?h) = _ =>
        change (a :: b :: c :: d :: h) with ([a; b; c; d] ++ h)
    end.
    now rewrite since_app.
Qed.

(** *** The script *)


(** X15: as long as the button is not pressed the script only stores the
    credential and renders its six fixed widgets: no stage is entered and no
    service or file is touched, whatever the URL field holds. *)
Theorem script_idle url w key :
  sv_secrets sv (lit "OPENAI_API_KEY") = Some key ->
  let w' := snd (script sv url false w) in
  fst (script sv url false w) = Ok tt
  /\ openai_api_key w' = Some key
  /\ calls_since w w' = []
  /\ files w' = files w /\ dirs w' = dirs w
  /\ ui_since w w'
     = [ St_set_page_config (lit "YouTube Video Summarizer") (lit "wide");
         St_title ([127909%N] ++ lit " AI-Powered YouTube Video Summarizer");
         St_text_input (lit "Enter YouTube Video URL:") (lit "https://youtube.com/...");
         St_button (lit "Generate Summary");
         St_markdown (lit "---");
         St_markdown (lit "Built with " ++ [10084%N; 65039%N]
                      ++ lit " using OpenAI, Streamlit, and Python") ].
Proof.
  intros Hkey w'. subst w'.
  unfold script, st_secrets. rewrite Hkey. py_unfold.
  cbn [fst snd]. unfold calls_since, ui_since.
  cbn [history ui files dirs openai_api_key show set_api_key].
  split; [reflexivity|]. split; [reflexivity|]. split; [apply since_refl|].
  split; [reflexivity|]. split; [reflexivity|].
  match goal with
  | |- since ?h (?a :: ?b :: ?c :: ?d :: ?e :: ?f :: ?h) = _ =>
      change (a :: b :: c :: d :: e :: f :: h) with ([a; b; c; d; e; f] ++ h)
  end.
  now rewrite since_app.
Qed.

End Coverage.

(** * The further properties on sample runs *)

Lemma fetched_transcript_falsy_iff_witness :
  exists t,
    fst (get_youtube_transcript (captioned hello_segments (lit "- a point"))
           sample_url empty_world) = Ok (Some t)
    /\ (truthy (Some t) = false
        <-> map text hello_segments = [] \/ map text hello_segments = [[]]).
Proof.
  exact (fetched_transcript_falsy_iff (captioned hello_segments (lit "- a point"))
           sample_url empty_world sample_video hello_segments eq_refl eq_refl).
Defined.

Lemma transcribe_missing_file_witness :
  fst (transcribe_audio (uncaptioned (Ok (lit "hello"))) (lit "temp_audio/audio.mp4")
         empty_world) = Ok None.
Proof.
  apply (transcribe_missing_file (uncaptioned (Ok (lit "hello")))
           (lit "temp_audio/audio.mp4") empty_world);
    apply not_elem_of_empty.
Defined.

Lemma summarizer_tokenizer_failure_witness :
  chat_requests
    (calls_since empty_world
       (snd (generate_summary offline (lit "Hello world") default_max_tokens empty_world)))
  = [].
Proof.
  apply (summarizer_tokenizer_failure offline (lit "Hello world") default_max_tokens
           empty_world refused eq_refl).
Defined.

Lemma summarizer_no_choice_witness :
  fst (generate_summary silent_video (lit "Hello world") default_max_tokens empty_world)
  = Ok None.
Proof.
  rewrite (summarizer_no_choice silent_video (lit "Hello world") default_max_tokens
             empty_world (lit "Hello world") eq_refl eq_refl).
  reflexivity.
Defined.

Lemma summarizer_sends_prefix_witness :
  exists sent rest,
    map content
      (flat_map messages
         (chat_requests
            (calls_since empty_world
               (snd (generate_summary (captioned hello_segments (lit "- a point")) long_text
                       default_max_tokens empty_world)))))
    = [ lit "You are a helpful assistant that summarizes video transcripts.";
        lit "Create a detailed summary with key points in bullet format:"
        ++ [10%N; 10%N] ++ sent ]
    /\ long_text = sent ++ rest
    /\ 2 * Z.of_nat (length sent) <= 7 * default_max_tokens.
Proof.
  destruct (summarizer_sends_prefix (captioned hello_segments (lit "- a point")) long_text
              default_max_tokens empty_world long_text)
    as (sent & rest & Hreq & Hpre & _ & Hbound).
  - vm_compute. discriminate.
  - reflexivity.
  - exists sent, rest. split; [now rewrite Hreq|]. split; [exact Hpre|].
    apply Hbound; vm_compute; [discriminate|reflexivity].
Defined.

Lemma download_scratch_is_a_file_witness :
  fst (download_audio (uncaptioned (Ok (lit "hello"))) sample_url scratch_taken) = Ok None
  /\ files (snd (download_audio (uncaptioned (Ok (lit "hello"))) sample_url scratch_taken))
     = files scratch_taken.
Proof.
  destruct (download_scratch_is_a_file (uncaptioned (Ok (lit "hello"))) sample_url
              scratch_taken sample_video sample_streams
              {| itag := 140; includes_audio_track := true; includes_video_track := false;
                 subtype := lit "mp4" |})
    as (Hres & _ & Hfiles & _).
  - reflexivity.
  - reflexivity.
  - vm_compute. reflexivity.
  - change (lit "temp_audio" ∈ ({[lit "temp_audio"]} : gset pystr)).
    now apply elem_of_singleton_2.
  - apply not_elem_of_empty.
  - now split.
Defined.

Lemma pipeline_stage_order_witness :
  let es := entries (calls_since empty_world
                       (snd (pipeline (uncaptioned (Ok (lit "hello"))) sample_url empty_world))) in
  exists p t rest,
    p <> [] /\ t <> []
    /\ (es ++ rest = [(Get_youtube_transcript, sample_url); (Generate_summary, t)]
        \/ es ++ rest = [ (Get_youtube_transcript, sample_url); (Download_audio, sample_url);
                          (Transcribe_audio, p); (Generate_summary, t) ]).
Proof.
  exact (pipeline_stage_order (uncaptioned (Ok (lit "hello"))) sample_url empty_world
           sample_url_not_empty).
Defined.


Lemma no_captions_no_audio_witness :
  ui_since empty_world (snd (pipeline silent_video sample_url empty_world))
  = [ St_spinner_enter (lit "Analyzing video...");
      St_error (lit "Could not process video. Please check URL or try another video.");
      St_spinner_exit ].
Proof.
  apply (no_captions_no_audio silent_video sample_url empty_world sample_video
           (Exn NoTranscriptFound (lit "No transcripts were found"))
           [ {| itag := 18; includes_audio_track := true; includes_video_track := true;
                subtype := lit "mp4" |} ]).
  - exact sample_url_not_empty.
  - reflexivity.
  - reflexivity.
  - now right.
  - reflexivity.
  - repeat constructor. intros (_ & Hv & _). discriminate.
Defined.

Lemma rejected_url_shows_three_errors_witness :
  errors (ui_since empty_world (snd (pipeline offline sample_url empty_world)))
  = [ lit "Error: " ++ lit "connection refused";
      lit "Download error: " ++ lit "connection refused";
      lit "Could not process video. Please check URL or try another video." ].
Proof.
  destruct (rejected_url_shows_three_errors offline sample_url empty_world refused)
    as (Hui & _).
  - exact sample_url_not_empty.
  - reflexivity.
  - discriminate.
  - discriminate.
  - rewrite Hui. reflexivity.
Defined.


Lemma script_idle_witness :
  calls_since empty_world (snd (script offline sample_url false empty_world)) = []
  /\ openai_api_key (snd (script offline sample_url false empty_world)) = Some (lit "sk-test").
Proof.
  destruct (script_idle offline sample_url empty_world (lit "sk-test") eq_refl)
    as (_ & Hkey & Hcalls & _).
  now split.
Defined.
